(** * Cantilevered beam problem: a shallow embedding of
      [cantilevered_beam_problem.py] and the properties of its evaluator.

    Modelling conventions.

    - A Python object is a [pyval].  Only the builtin types that matter for
      the evaluator are represented: [None], [bool], [int], [float], [str],
      [list] and [tuple].
    - A Python [float] is a [pyfloat]: a rational, or one of the special
      values [inf], [-inf], [nan].  Every arithmetic operation on finite
      floats rounds its exact result to the nearest binary64 value, ties to
      even ([Binary64.round]), as IEEE 754 arithmetic does; a decimal
      literal stands for the binary64 value nearest to it ([double]), and
      [x ** n] is the correctly rounded power.  The
      exponent range is not bounded: overflow, gradual underflow and signed
      zeros are not modelled (the evaluator only computes with values that
      passed its bounds checks, between 1e-4 and 1e10 in magnitude).
    - A call either returns a value or raises an exception ([outcome]); a
      method is a computation over the world it runs in ([M]): the attributes
      of [self] and the state of the generator behind the [random] module. *)

From Stdlib Require Import ZArith QArith Qround Qreduction Qpower Qabs Lqa Lia.
From stdpp Require Import base gmap strings list.

Open Scope Q_scope.

(** ** Python values *)

#[local] Set Warnings "-register-all".

Inductive pyfloat : Type :=
| Fin (q : Q)
| PInf
| NInf
| NaN.

Inductive pyval : Type :=
| VNone
| VBool (b : bool)
| VInt (z : Z)
| VFloat (f : pyfloat)
| VStr (s : string)
| VList (l : list pyval)
| VTuple (l : list pyval).

Inductive exn : Type :=
| TypeError
| ValueError
| OverflowError
| ZeroDivisionError
| IndexError
| KeyError.

Inductive outcome (A : Type) : Type :=
| Returns (a : A)
| Raises (e : exn).

Arguments Returns {A} a.
Arguments Raises {A} e.

(** ** Rounding *)

(** Round half to even, the rounding of [float.__round__] and of binary64
    arithmetic. *)
Definition round_half_even (q : Q) : Z :=
  let f := Qfloor q in
  match Qcompare (q - inject_Z f) (1 # 2) with
  | Lt => f
  | Gt => (f + 1)%Z
  | Eq => if Z.even f then f else (f + 1)%Z
  end.

Module Binary64.

(** The exponent [e] with [2^e <= x < 2^(e+1)], for [x > 0]. *)
Definition binade (x : Q) : Z :=
  let e := (Z.log2 (Qnum x) - Z.log2 (Zpos (Qden x)))%Z in
  if Qle_bool (2 ^ e) x then e else (e - 1)%Z.

(** The nearest number with a 53-bit significand, for [x > 0]: [x] is
    scaled into [2^52, 2^53), rounded to an integer and scaled back. *)
Definition round_pos (x : Q) : Q :=
  let k := (binade x - 52)%Z in
  inject_Z (round_half_even (x / 2 ^ k)) * 2 ^ k.

(** Round to nearest, ties to even; the result is in lowest terms. *)
Definition round (x : Q) : Q :=
  let y := Qred x in
  Qred (match Qcompare y 0 with
        | Eq => 0
        | Gt => round_pos y
        | Lt => - round_pos (- y)
        end).

End Binary64.

(** The value of a decimal float literal. *)
Definition double (q : Q) : Q := Binary64.round q.

(** ** Float arithmetic with the special values *)

Module Float.

Definition neg (x : pyfloat) : pyfloat :=
  match x with
  | Fin q => Fin (- q)
  | PInf => NInf
  | NInf => PInf
  | NaN => NaN
  end.

Definition add (x y : pyfloat) : pyfloat :=
  match x, y with
  | NaN, _ | _, NaN => NaN
  | Fin a, Fin b => Fin (Binary64.round (a + b))
  | PInf, NInf | NInf, PInf => NaN
  | PInf, _ | _, PInf => PInf
  | NInf, _ | _, NInf => NInf
  end.

Definition sub (x y : pyfloat) : pyfloat := add x (neg y).

(** The infinity whose sign is that of [q]; [nan] when [q] is zero. *)
Definition scaled_inf (q : Q) (negative : bool) : pyfloat :=
  match q ?= 0 with
  | Eq => NaN
  | Gt => if negative then NInf else PInf
  | Lt => if negative then PInf else NInf
  end.

Definition mul (x y : pyfloat) : pyfloat :=
  match x, y with
  | NaN, _ | _, NaN => NaN
  | Fin a, Fin b => Fin (Binary64.round (a * b))
  | Fin a, PInf | PInf, Fin a => scaled_inf a false
  | Fin a, NInf | NInf, Fin a => scaled_inf a true
  | PInf, PInf | NInf, NInf => PInf
  | PInf, NInf | NInf, PInf => NInf
  end.

(** Division by a divisor that is not zero (Python raises before
    dividing by zero, see [py_truediv]). *)
Definition div (x y : pyfloat) : pyfloat :=
  match x, y with
  | NaN, _ | _, NaN => NaN
  | Fin a, Fin b => Fin (Binary64.round (a / b))
  | Fin _, (PInf | NInf) => Fin 0
  | PInf, Fin b => scaled_inf b false
  | NInf, Fin b => scaled_inf b true
  | (PInf | NInf), (PInf | NInf) => NaN
  end.

(** [x ** n] for a literal exponent [n >= 0], as a correctly rounded
    [pow]; [x ** 0] is [1.0] for every [x], [nan] included. *)
Definition pow (x : pyfloat) (n : nat) : pyfloat :=
  match n, x with
  | O, _ => Fin 1
  | _, Fin q => Fin (Binary64.round (q ^ Z.of_nat n))
  | _, PInf => PInf
  | _, NInf => if Nat.even n then PInf else NInf
  | _, NaN => NaN
  end.

Definition le (x y : pyfloat) : bool :=
  match x, y with
  | NaN, _ | _, NaN => false
  | Fin a, Fin b => Qle_bool a b
  | NInf, _ | _, PInf => true
  | PInf, _ | _, NInf => false
  end.

Definition lt (x y : pyfloat) : bool :=
  match x, y with
  | NaN, _ | _, NaN => false
  | _, _ => negb (le y x)
  end.

Definition is_zero (x : pyfloat) : bool :=
  match x with
  | Fin q => Qeq_bool q 0
  | _ => false
  end.

Definition is_finite (x : pyfloat) : bool :=
  match x with
  | Fin _ => true
  | _ => false
  end.

End Float.

(** ** Numbers: [bool] and [int] on one side, [float] on the other *)

Inductive num : Type :=
| NInt (z : Z)
| NFloat (f : pyfloat).

Definition as_num (v : pyval) : option num :=
  match v with
  | VBool b => Some (NInt (Z.b2z b))
  | VInt z => Some (NInt z)
  | VFloat f => Some (NFloat f)
  | _ => None
  end.

(** The exact value of a number: comparisons between an [int] and a
    [float] are exact. *)
Definition value (n : num) : pyfloat :=
  match n with
  | NInt z => Fin (inject_Z z)
  | NFloat f => f
  end.

(** The conversion of an operand to [float] in mixed arithmetic: an
    [int] is rounded to the nearest float. *)
Definition to_float (n : num) : pyfloat :=
  match n with
  | NInt z => Fin (Binary64.round (inject_Z z))
  | NFloat f => f
  end.

(** [int (op) int] stays an [int]; any other pair of numbers gives a
    [float]; an operand that is not a number raises [TypeError]. *)
Definition arith2 (fi : Z -> Z -> Z) (ff : pyfloat -> pyfloat -> pyfloat)
    (a b : pyval) : outcome pyval :=
  match as_num a, as_num b with
  | Some (NInt x), Some (NInt y) => Returns (VInt (fi x y))
  | Some x, Some y => Returns (VFloat (ff (to_float x) (to_float y)))
  | _, _ => Raises TypeError
  end.

Definition py_add : pyval -> pyval -> outcome pyval := arith2 Z.add Float.add.
Definition py_sub : pyval -> pyval -> outcome pyval := arith2 Z.sub Float.sub.
Definition py_mul : pyval -> pyval -> outcome pyval := arith2 Z.mul Float.mul.

(** [a / b]: true division, always a [float]. *)
Definition py_truediv (a b : pyval) : outcome pyval :=
  match as_num a, as_num b with
  | Some x, Some y =>
      if Float.is_zero (to_float y) then Raises ZeroDivisionError
      else Returns (VFloat (Float.div (to_float x) (to_float y)))
  | _, _ => Raises TypeError
  end.

(** [a ** n] for a literal exponent [n >= 0]. *)
Definition py_pow (a : pyval) (n : nat) : outcome pyval :=
  match as_num a with
  | Some (NInt x) => Returns (VInt (x ^ Z.of_nat n))
  | Some (NFloat f) => Returns (VFloat (Float.pow f n))
  | None => Raises TypeError
  end.

(** Ordering comparisons where one side is known to be a number: a number
    against anything that is not a number raises [TypeError]. *)
Definition py_cmp (op : pyfloat -> pyfloat -> bool) (a b : pyval)
    : outcome bool :=
  match as_num a, as_num b with
  | Some x, Some y => Returns (op (value x) (value y))
  | _, _ => Raises TypeError
  end.

Definition py_le : pyval -> pyval -> outcome bool := py_cmp Float.le.
Definition py_lt : pyval -> pyval -> outcome bool := py_cmp Float.lt.
Definition py_gt (a b : pyval) : outcome bool := py_cmp (flip Float.lt) a b.

(** [round(x)] with one argument: an [int] for every number, [ValueError]
    on [nan], [OverflowError] on an infinity, [TypeError] otherwise. *)
Definition py_round (v : pyval) : outcome Z :=
  match v with
  | VBool b => Returns (Z.b2z b)
  | VInt z => Returns z
  | VFloat (Fin q) => Returns (round_half_even q)
  | VFloat NaN => Raises ValueError
  | VFloat _ => Raises OverflowError
  | _ => Raises TypeError
  end.

(** [int(n)] of an [int]. *)
Definition py_int (n : Z) : Z := n.

(** [l[i]] on a list or tuple, with Python's negative indices. *)
Definition seq_getitem (l : list pyval) (i : Z) : outcome pyval :=
  let j := if (i <? 0)%Z then (i + Z.of_nat (length l))%Z else i in
  if (j <? 0)%Z then Raises IndexError
  else match l !! Z.to_nat j with
       | Some v => Returns v
       | None => Raises IndexError
       end.

(** [d[k]] on a dict. *)
Definition dict_getitem {V : Type} (d : gmap string V) (k : string)
    : outcome V :=
  match d !! k with
  | Some v => Returns v
  | None => Raises KeyError
  end.

(** A float literal of the source. *)
Definition float_lit (q : Q) : pyval := VFloat (Fin (double q)).

(** ** The problem object and the world a method runs in *)

(** The attributes that [__init__] sets on [self]. *)
Record CantileveredBeamProblem : Type := {
  P : pyval;
  E : pyval;
  L : pyval;
  possibleValues : list pyval;
  bounds : gmap string (pyval * pyval)
}.

Definition __init__ : CantileveredBeamProblem :=
  let values :=
    [float_lit 0.1; float_lit 0.26; float_lit 0.35; float_lit 0.5;
     float_lit 0.65; float_lit 0.75; float_lit 0.9; float_lit 1.0] in
  {| P := VInt 1000;
     E := float_lit 10000000;  (* 10e6 *)
     L := VInt 36;
     possibleValues := values;
     bounds :=
       <["H" := (float_lit 3.0, float_lit 7.0)]>
       (<["h1" := (VInt 0, VInt (Z.of_nat (length values) - 1))]>
       (<["b1" := (float_lit 2.0, float_lit 12.0)]>
       (<["b2" := (float_lit 0.1, float_lit 2.0)]> ∅))) |}.

(** ** A concrete generator, to run [random_solution] on

    Its state is a counter [n]; [random()] returns [(n mod 8) / 8] and
    [_randbelow(k)] returns [n mod k]. *)

Module Cycle.

Definition state : Type := nat.

Definition random (n : state) : Q * state :=
  (inject_Z (Z.of_nat (n mod 8)) / 8, S n).


End Cycle.

(** ** The evaluation in closed form *)

Definition PENALTY : pyval := VFloat (Fin 1000000000).

Definition table : list Q :=
  [double 0.1; double 0.26; double 0.35; double 0.5;
   double 0.65; double 0.75; double 0.9; double 1.0].

Definition flangeHeight (h1 : Z) : Q := nth (Z.to_nat h1) table 0.

(** The quantities of the class docstring, on exact rationals. *)

Definition inertia (H fh1 b1 b2 : Q) : Q :=
  (1 / 12.0) * b2 * (H - 2 * fh1) ^ 3
  + 2 * ((1 / 12.0) * b1 * fh1 ^ 3 + b1 * fh1 * (H - fh1) ^ 2 / 4.0).

Definition stress (H I_ : Q) : Q := 1000 * 36 * H / (2 * I_).

Definition deflection (I_ : Q) : Q := 1000 * 36 ^ 3 / (3 * 10000000 * I_).

Definition volume (H fh1 b1 b2 : Q) : Q :=
  (2 * fh1 * b1 + (H - 2 * fh1) * b2) * 36.

(** The same quantities as the code computes them: in its order of
    evaluation, every operation rounded to binary64.
    [evaluate_solution_summary] below proves that the method computes
    exactly this. *)

(** [1/12.0] *)
Definition twelfth : Q := Binary64.round (1 / 12).

(** [H - 2 * fh1] *)
Definition web64 (H fh1 : Q) : Q :=
  Binary64.round (H - Binary64.round (2 * fh1)).

Definition inertia64 (H fh1 b1 b2 : Q) : Q :=
  let rd := Binary64.round in
  let term1 := rd (rd (twelfth * b2) * rd (web64 H fh1 ^ 3)) in
  let term2 :=
    rd (2 * rd (rd (rd (twelfth * b1) * rd (fh1 ^ 3))
                + rd (rd (rd (b1 * fh1) * rd (rd (H - fh1) ^ 2)) / 4))) in
  rd (term1 + term2).

Definition stress64 (H I_ : Q) : Q :=
  let rd := Binary64.round in
  rd (rd (36000 * H) / rd (2 * I_)).

Definition deflection64 (I_ : Q) : Q :=
  let rd := Binary64.round in
  rd (46656000 / rd (30000000 * I_)).

Definition volume64 (H fh1 b1 b2 : Q) : Q :=
  let rd := Binary64.round in
  rd (rd (rd (rd (2 * fh1) * b1) + rd (web64 H fh1 * b2)) * 36).

(** The decision on a candidate within the bounds. *)
Definition physics (H fh1 b1 b2 : Q) : pyval :=
  let I_ := inertia64 H fh1 b1 b2 in
  if Qle_bool I_ 0 then PENALTY
  else if negb (Qle_bool (stress64 H I_) 5000)
          || negb (Qle_bool (deflection64 I_) (double 0.10)) then PENALTY
  else VFloat (Fin (volume64 H fh1 b1 b2)).

(** [lo <= x <= hi] on floats. *)
Definition between (lo hi : Q) (x : pyfloat) : bool :=
  Float.le (Fin lo) x && Float.le x (Fin hi).

(** The decision on a list or tuple of four elements. *)
Definition summary4 (vH x1 vb1 vb2 : pyval) : outcome pyval :=
  match py_round x1 with
  | Raises e => Raises e
  | Returns r =>
    if (r <? 0)%Z || (7 <? r)%Z then Returns PENALTY else
    match as_num vH with
    | None => Raises TypeError
    | Some nH =>
      if negb (between 3.0 7.0 (value nH)) then Returns PENALTY else
      match as_num vb1 with
      | None => Raises TypeError
      | Some nb1 =>
        if negb (between 2.0 12.0 (value nb1)) then Returns PENALTY else
        match as_num vb2 with
        | None => Raises TypeError
        | Some nb2 =>
          if negb (between (double 0.1) 2.0 (value nb2))
          then Returns PENALTY else
          match value nH, value nb1, value nb2 with
          | Fin H, Fin b1, Fin b2 =>
              Returns (physics H (flangeHeight r) b1 b2)
          | _, _, _ => Returns PENALTY
          end
        end
      end
    end
  end.

Definition summary (solution : pyval) : outcome pyval :=
  match solution with
  | VList [vH; x1; vb1; vb2] | VTuple [vH; x1; vb1; vb2] =>
      summary4 vH x1 vb1 vb2
  | _ => Returns PENALTY
  end.

(** ** Vocabulary of the statements *)

(** [solution] is the list or the tuple of [items]. *)
Definition sequence_of (solution : pyval) (items : list pyval) : Prop :=
  solution = VList items \/ solution = VTuple items.

(** The value of a [bool], [int] or [float], as a float. *)
Definition number_value (v : pyval) : option pyfloat :=
  match as_num v with
  | Some n => Some (value n)
  | None => None
  end.

(** [solution] is a list or tuple of exactly four elements. *)
Definition four_items (solution : pyval) : Prop :=
  exists items, sequence_of solution items /\ length items = 4%nat.

(** [solution] is a list or tuple of four numbers, the second of them
    finite. *)
Definition four_numbers (solution : pyval) : Prop :=
  exists vH x1 vb1 vb2 q,
    sequence_of solution [vH; x1; vb1; vb2] /\
    number_value vH <> None /\ number_value x1 = Some (Fin q) /\
    number_value vb1 <> None /\ number_value vb2 <> None.

(** [solution] is a list or tuple of exactly four numbers. *)
Definition four_numeric_values (solution : pyval) : Prop :=
  exists items,
    sequence_of solution items /\ length items = 4%nat /\
    Forall (fun v => number_value v <> None) items.

(** [o] is a returned finite float whose value is [q]. *)
Definition returns_float (o : outcome pyval) (q : Q) : Prop :=
  exists q', o = Returns (VFloat (Fin q')) /\ q' == q.

(** Two floats that denote the same value: equal rationals, or the same
    special value. *)
Definition same_float (x y : pyfloat) : Prop :=
  match x, y with
  | Fin a, Fin b => a == b
  | PInf, PInf | NInf, NInf | NaN, NaN => True
  | _, _ => False
  end.

(** Two outcomes that a caller cannot tell apart: the same exception, or
    floats of the same value. *)
Definition same_outcome (o o' : outcome pyval) : Prop :=
  match o, o' with
  | Returns (VFloat x), Returns (VFloat y) => same_float x y
  | _, _ => o = o'
  end.

(** [v] is a [float] that is [nan] or an infinity. *)
Definition non_finite (v : pyval) : Prop :=
  v = VFloat NaN \/ v = VFloat PInf \/ v = VFloat NInf.


Section Beam.

(** The generator behind the [random] module: its state, [random()]
    and [_randbelow(n)]. *)
Variable G : Type.
Variable gen_random : G -> Q * G.
Variable gen_randbelow : Z -> G -> Z * G.

Hypothesis gen_random_range :
  forall g, 0 <= fst (gen_random g) /\ fst (gen_random g) < 1.
Hypothesis gen_randbelow_range :
  forall n g, (0 < n)%Z ->
    (0 <= fst (gen_randbelow n g) < n)%Z.

Record world : Type := { self : CantileveredBeamProblem; rng : G }.

(** Computations that read and write the world and may raise. *)
Definition M (A : Type) : Type := world -> outcome A * world.

Definition ret {A} (a : A) : M A := fun w => (Returns a, w).

Definition bind {A B} (c : M A) (k : A -> M B) : M B :=
  fun w =>
    match c w with
    | (Returns a, w') => k a w'
    | (Raises e, w') => (Raises e, w')
    end.

Definition lift {A} (o : outcome A) : M A := fun w => (o, w).

(** Read an attribute of [self]. *)
Definition attr {A} (field : CantileveredBeamProblem -> A) : M A :=
  fun w => (Returns (field (self w)), w).

(** The body of a [try] block, its outcome handed to the [except]
    dispatch. *)
Definition attempt {A} (c : M A) : M (outcome A) :=
  fun w => let (o, w') := c w in (Returns o, w').

Notation "x <- c ;; k" := (bind c (fun x => k))
  (at level 100, c at next level, right associativity).
Notation "x <~ o ;; k" := (bind (lift o) (fun x => k))
  (at level 100, o at next level, right associativity).

(** [self.bounds[name][i]], [i] being 0 ([fst]) or 1 ([snd]). *)
Definition bound (name : string) (i : pyval * pyval -> pyval) : M pyval :=
  d <- attr bounds ;;
  t <~ dict_getitem d name ;;
  ret (i t).

(** [self.bounds[name][0] <= x <= self.bounds[name][1]] *)
Definition within (name : string) (x : pyval) : M bool :=
  lo <- bound name fst ;;
  c <~ py_le lo x ;;
  if c then (hi <- bound name snd ;; lift (py_le x hi)) else ret false.

Definition evaluate_solution (solution : pyval) : M pyval :=
  let PENALTY := float_lit 1000000000 in  (* 1e9 *)
  match solution with
  | VList items | VTuple items =>
    if negb (length items =? 4)%nat then ret PENALTY else
    H <~ seq_getitem items 0 ;;
    x1 <~ seq_getitem items 1 ;;
    r <~ py_round x1 ;;
    let h1 := py_int r in
    lo <- bound "h1" fst ;;
    below <~ py_lt (VInt h1) lo ;;
    outside <- (if below then ret true
                else (hi <- bound "h1" snd ;; lift (py_gt (VInt h1) hi))) ;;
    if outside then ret PENALTY else
    values <- attr possibleValues ;;
    fh1 <~ seq_getitem values h1 ;;
    b1 <~ seq_getitem items 2 ;;
    b2 <~ seq_getitem items 3 ;;
    okH <- within "H" H ;;
    if negb okH then ret PENALTY else
    okb1 <- within "b1" b1 ;;
    if negb okb1 then ret PENALTY else
    okb2 <- within "b2" b2 ;;
    if negb okb2 then ret PENALTY else
    tried <- attempt (
      c <~ py_truediv (VInt 1) (float_lit 12.0) ;;
      cb <~ py_mul c b2 ;;
      f2 <~ py_mul (VInt 2) fh1 ;;
      web <~ py_sub H f2 ;;
      web3 <~ py_pow web 3 ;;
      term1 <~ py_mul cb web3 ;;
      c' <~ py_truediv (VInt 1) (float_lit 12.0) ;;
      cb' <~ py_mul c' b1 ;;
      fh3 <~ py_pow fh1 3 ;;
      own <~ py_mul cb' fh3 ;;
      bf <~ py_mul b1 fh1 ;;
      arm <~ py_sub H fh1 ;;
      arm2 <~ py_pow arm 2 ;;
      shifted <~ py_mul bf arm2 ;;
      quarter <~ py_truediv shifted (float_lit 4.0) ;;
      flange <~ py_add own quarter ;;
      term2 <~ py_mul (VInt 2) flange ;;
      lift (py_add term1 term2)) ;;
    match tried with
    | Raises _ => ret PENALTY
    | Returns I_ =>
      degenerate <~ py_le I_ (VInt 0) ;;
      if degenerate then ret PENALTY else
      p <- attr P ;;
      l <- attr L ;;
      pl <~ py_mul p l ;;
      plh <~ py_mul pl H ;;
      i2 <~ py_mul (VInt 2) I_ ;;
      g1 <~ py_truediv plh i2 ;;
      p' <- attr P ;;
      l' <- attr L ;;
      l3 <~ py_pow l' 3 ;;
      pl3 <~ py_mul p' l3 ;;
      e <- attr E ;;
      e3 <~ py_mul (VInt 3) e ;;
      ei <~ py_mul e3 I_ ;;
      g2 <~ py_truediv pl3 ei ;;
      stressed <~ py_gt g1 (VInt 5000) ;;
      violated <- (if stressed then ret true
                   else lift (py_gt g2 (float_lit 0.10))) ;;
      if violated then ret PENALTY else
      f2 <~ py_mul (VInt 2) fh1 ;;
      area1 <~ py_mul f2 b1 ;;
      f2' <~ py_mul (VInt 2) fh1 ;;
      web <~ py_sub H f2' ;;
      area2 <~ py_mul web b2 ;;
      area <~ py_add area1 area2 ;;
      l'' <- attr L ;;
      volume <~ py_mul area l'' ;;
      ret volume
    end
  | _ => ret PENALTY
  end.

(** [random.random()]: a float in [0.0, 1.0). *)
Definition random : M pyval :=
  fun w =>
    let (u, g) := gen_random (rng w) in
    (Returns (VFloat (Fin u)), {| self := self w; rng := g |}).





(** The world right after [CantileveredBeamProblem()]. *)
Definition world0 (g : G) : world := {| self := __init__; rng := g |}.

(** What a call returns or raises, and whether it leaves every world as
    it found it. *)
Definition run {A} (c : M A) (w : world) : outcome A := fst (c w).

Definition readonly {A} (c : M A) : Prop := forall w, snd (c w) = w.

(** ** Properties of the rounding *)

Lemma pow2_pos k : 0 < 2 ^ k.
Proof. apply Qpower_0_lt. reflexivity. Qed.


Lemma pow2_plus a b : 2 ^ (a + b) == 2 ^ a * 2 ^ b.
Proof. apply Qpower_plus. discriminate. Qed.

Lemma pow2_succ k : 2 ^ (k + 1) == 2 * 2 ^ k.
Proof. rewrite pow2_plus. change (2 ^ 1) with 2. ring. Qed.

Lemma pow2_le a b : (a <= b)%Z -> 2 ^ a <= 2 ^ b.
Proof. intros. apply Qpower_le_compat_l; [assumption | discriminate]. Qed.

Lemma pow2_Z a : (0 <= a)%Z -> inject_Z (2 ^ a) == 2 ^ a.
Proof. intros. apply (Zpower_Qpower 2 a). assumption. Qed.

Lemma binade_spec x :
  0 < x -> 2 ^ Binary64.binade x <= x /\ x < 2 ^ (Binary64.binade x + 1).
Proof.
  intros Hx. unfold Binary64.binade.
  destruct x as [n d]. cbn [Qnum Qden].
  assert (0 < n)%Z as Hn by (unfold Qlt in Hx; cbn in Hx; lia).
  set (a := Z.log2 n). set (b := Z.log2 (Z.pos d)).
  assert (0 <= a)%Z as Ha by apply Z.log2_nonneg.
  assert (0 <= b)%Z as Hb by apply Z.log2_nonneg.
  destruct (Z.log2_spec n Hn) as [Hn1 Hn2]. fold a in Hn1, Hn2.
  destruct (Z.log2_spec (Z.pos d) ltac:(lia)) as [Hd1 Hd2].
  fold b in Hd1, Hd2.
  rewrite Zle_Qle, pow2_Z in Hn1, Hd1 by assumption.
  rewrite Zlt_Qlt in Hn2, Hd2.
  rewrite <- Z.add_1_r in Hn2, Hd2.
  rewrite pow2_Z, pow2_succ in Hn2, Hd2 by lia.
  set (x := n # d) in *.
  assert (x * inject_Z (Z.pos d) == inject_Z n) as Hxd.
  { unfold x. rewrite (Qmake_Qdiv n d). field. discriminate. }
  set (NQ := inject_Z n) in *. set (DQ := inject_Z (Z.pos d)) in *.
  pose proof (pow2_pos a) as Hpa. pose proof (pow2_pos b) as Hpb.
  pose proof (pow2_pos (a - b)) as HE.
  assert (2 ^ (a - b) * 2 ^ b == 2 ^ a) as HEb.
  { rewrite <- pow2_plus. replace (a - b + b)%Z with a by lia. reflexivity. }
  pose proof (pow2_succ (a - b)) as HE2.
  pose proof (pow2_succ (a - b - 1)) as HE1.
  replace (a - b - 1 + 1)%Z with (a - b)%Z in HE1 by lia.
  pose proof (pow2_pos (a - b - 1)) as HEm.
  set (E := 2 ^ (a - b)) in *. set (pa := 2 ^ a) in *. set (pb := 2 ^ b) in *.
  set (Em := 2 ^ (a - b - 1)) in *. set (Ep := 2 ^ (a - b + 1)) in *.
  assert (0 < DQ) as HD by lra.
  assert (Em < x) as Hlow.
  { apply (Qmult_lt_r _ _ DQ HD). rewrite Hxd.
    assert (Em * DQ < Em * (2 * pb)) by nra. nra. }
  assert (x < Ep) as Hup.
  { apply (Qmult_lt_r _ _ DQ HD). rewrite Hxd.
    assert (E * pb <= E * DQ) by nra. nra. }
  destruct (Qle_bool E x) eqn:Etest.
  - apply Qle_bool_iff in Etest. split; assumption.
  - assert (x < E) as Hlt.
    { apply Qnot_le_lt. intros Hc. apply Qle_bool_iff in Hc. congruence. }
    replace (a - b - 1 + 1)%Z with (a - b)%Z by lia. fold E.
    split; [apply Qlt_le_weak|]; assumption.
Qed.

(** *** Rounding to an integer *)

Lemma floor_facts q :
  inject_Z (Qfloor q) <= q /\ q < inject_Z (Qfloor q) + 1.
Proof.
  split; [apply Qfloor_le|].
  pose proof (Qlt_floor q) as H. rewrite inject_Z_plus in H. exact H.
Qed.

Lemma round_half_even_cases q :
  let f := Qfloor q in
  (q - inject_Z f < 1 # 2 /\ round_half_even q = f)
  \/ (1 # 2 < q - inject_Z f /\ round_half_even q = (f + 1)%Z)
  \/ (q - inject_Z f == 1 # 2
      /\ round_half_even q = if Z.even f then f else (f + 1)%Z).
Proof.
  intros f. unfold round_half_even. fold f.
  destruct (Qcompare_spec (q - inject_Z f) (1 # 2)) as [E|E|E]; auto.
Qed.

Lemma round_half_even_near q :
  q - (1 # 2) <= inject_Z (round_half_even q)
  /\ inject_Z (round_half_even q) <= q + (1 # 2).
Proof.
  destruct (floor_facts q) as [Hf1 Hf2].
  destruct (round_half_even_cases q) as [[Hc ->] | [[Hc ->] | [Hc ->]]];
    cbv zeta in *.
  - split; lra.
  - rewrite inject_Z_plus. change (inject_Z 1) with 1. split; lra.
  - destruct (Z.even (Qfloor q)).
    + split; lra.
    + rewrite inject_Z_plus. change (inject_Z 1) with 1. split; lra.
Qed.

Lemma round_half_even_comp q q' :
  q == q' -> round_half_even q = round_half_even q'.
Proof.
  intros Hq. unfold round_half_even.
  rewrite (Qfloor_comp _ _ Hq).
  rewrite (Qcompare_comp (q - inject_Z (Qfloor q')) (q' - inject_Z (Qfloor q'))
             ltac:(rewrite Hq; reflexivity) (1 # 2) (1 # 2) ltac:(reflexivity)).
  reflexivity.
Qed.

Lemma round_half_even_int z : round_half_even (inject_Z z) = z.
Proof.
  unfold round_half_even. rewrite Qfloor_Z.
  destruct (Qcompare_spec (inject_Z z - inject_Z z) (1 # 2)) as [E|E|E];
    [lra | reflexivity | lra].
Qed.

Lemma round_half_even_mono q q' :
  q <= q' -> (round_half_even q <= round_half_even q')%Z.
Proof.
  intros Hle.
  destruct (Z.le_gt_cases (round_half_even q) (round_half_even q'))
    as [|Hgt]; [assumption|exfalso].
  destruct (round_half_even_near q) as [_ H1].
  destruct (round_half_even_near q') as [H2 _].
  assert (round_half_even q' + 1 <= round_half_even q)%Z as Hz by lia.
  rewrite Zle_Qle, inject_Z_plus in Hz. change (inject_Z 1) with 1 in Hz.
  assert (q == q') as Heq by lra.
  rewrite (round_half_even_comp _ _ Heq) in Hgt. lia.
Qed.

(** *** Rounding a positive number to 53 bits *)

Section RoundPos.
Variable x : Q.
Hypothesis Hx : 0 < x.
Let e := Binary64.binade x.
Let k := (e - 52)%Z.
Let s := x / 2 ^ k.

Lemma scaled_range : 2 ^ 52 <= s /\ s < 2 ^ 53.
Proof.
  destruct (binade_spec x Hx) as [H1 H2]. fold e in H1, H2.
  pose proof (pow2_pos k) as HP.
  assert (2 ^ e == 2 ^ 52 * 2 ^ k) as E1.
  { rewrite <- pow2_plus. unfold k. replace (52 + (e - 52))%Z with e by lia.
    reflexivity. }
  assert (2 ^ (e + 1) == 2 ^ 53 * 2 ^ k) as E2.
  { rewrite <- pow2_plus. unfold k.
    replace (53 + (e - 52))%Z with (e + 1)%Z by lia. reflexivity. }
  rewrite E1 in H1. rewrite E2 in H2.
  unfold s. split.
  - apply Qle_shift_div_l; assumption.
  - apply Qlt_shift_div_r; assumption.
Qed.


Lemma mantissa_range :
  2 ^ 52 <= inject_Z (round_half_even s)
  /\ inject_Z (round_half_even s) <= 2 ^ 53.
Proof.
  destruct scaled_range as [H1 H2].
  split.
  - change (2 ^ 52) with (inject_Z (2 ^ 52)). rewrite <- Zle_Qle.
    rewrite <- (round_half_even_int (2 ^ 52)).
    apply round_half_even_mono. exact H1.
  - change (2 ^ 53) with (inject_Z (2 ^ 53)). rewrite <- Zle_Qle.
    rewrite <- (round_half_even_int (2 ^ 53)).
    apply round_half_even_mono. apply Qlt_le_weak. exact H2.
Qed.

Lemma round_pos_eq :
  Binary64.round_pos x == inject_Z (round_half_even s) * 2 ^ k.
Proof. reflexivity. Qed.

Lemma round_pos_range :
  2 ^ e <= Binary64.round_pos x /\ Binary64.round_pos x <= 2 ^ (e + 1).
Proof.
  rewrite round_pos_eq. destruct mantissa_range as [H1 H2].
  pose proof (pow2_pos k) as HP.
  assert (2 ^ e == 2 ^ 52 * 2 ^ k) as E1.
  { rewrite <- pow2_plus. unfold k. replace (52 + (e - 52))%Z with e by lia.
    reflexivity. }
  assert (2 ^ (e + 1) == 2 ^ 53 * 2 ^ k) as E2.
  { rewrite <- pow2_plus. unfold k.
    replace (53 + (e - 52))%Z with (e + 1)%Z by lia. reflexivity. }
  rewrite E1, E2. split; apply Qmult_le_compat_r; lra.
Qed.

End RoundPos.

Lemma binade_mono x y :
  0 < x -> x <= y -> (Binary64.binade x <= Binary64.binade y)%Z.
Proof.
  intros Hx Hxy.
  destruct (binade_spec x Hx) as [X1 X2].
  destruct (binade_spec y ltac:(lra)) as [Y1 Y2].
  destruct (Z.le_gt_cases (Binary64.binade x) (Binary64.binade y))
    as [|Hgt]; [assumption|exfalso].
  pose proof (pow2_le (Binary64.binade y + 1) (Binary64.binade x) ltac:(lia)).
  lra.
Qed.

Lemma round_pos_mono x y :
  0 < x -> x <= y -> Binary64.round_pos x <= Binary64.round_pos y.
Proof.
  intros Hx Hxy. assert (0 < y) as Hy by lra.
  pose proof (binade_mono x y Hx Hxy) as Hb.
  destruct (Z.eq_dec (Binary64.binade x) (Binary64.binade y)) as [E|NE].
  - unfold Binary64.round_pos. rewrite E.
    set (k := (Binary64.binade y - 52)%Z).
    pose proof (pow2_pos k) as HP.
    apply Qmult_le_compat_r; [|lra].
    rewrite <- Zle_Qle. apply round_half_even_mono.
    apply Qmult_le_compat_r; [assumption|].
    apply Qlt_le_weak, Qinv_lt_0_compat, HP.
  - destruct (round_pos_range x Hx) as [_ X2].
    destruct (round_pos_range y Hy) as [Y1 _].
    pose proof (pow2_le (Binary64.binade x + 1) (Binary64.binade y)
                  ltac:(lia)).
    lra.
Qed.

Lemma round_pos_positive x : 0 < x -> 0 < Binary64.round_pos x.
Proof.
  intros Hx. destruct (round_pos_range x Hx) as [H _].
  pose proof (pow2_pos (Binary64.binade x)). lra.
Qed.

(** *** Rounding to binary64 *)

Lemma round_comp x y : x == y -> Binary64.round x = Binary64.round y.
Proof.
  intros E. unfold Binary64.round. rewrite (Qred_complete _ _ E). reflexivity.
Qed.

Lemma round_of_pos x :
  0 < x -> Binary64.round x == Binary64.round_pos (Qred x).
Proof.
  intros Hx. unfold Binary64.round. cbv zeta.
  destruct (Qcompare_spec (Qred x) 0) as [E|E|E];
    rewrite Qred_correct in E; try lra.
  apply Qred_correct.
Qed.

Lemma round_of_neg x :
  x < 0 -> Binary64.round x == - Binary64.round_pos (- Qred x).
Proof.
  intros Hx. unfold Binary64.round. cbv zeta.
  destruct (Qcompare_spec (Qred x) 0) as [E|E|E];
    rewrite Qred_correct in E; try lra.
  apply Qred_correct.
Qed.

Lemma round_of_zero x : x == 0 -> Binary64.round x == 0.
Proof.
  intros Hx. unfold Binary64.round. cbv zeta.
  destruct (Qcompare_spec (Qred x) 0) as [E|E|E];
    rewrite Qred_correct in E; try lra.
  reflexivity.
Qed.

Lemma round_positive x : 0 < x -> 0 < Binary64.round x.
Proof.
  intros Hx. rewrite (round_of_pos x Hx).
  apply round_pos_positive. rewrite Qred_correct. assumption.
Qed.

Lemma round_negative x : x < 0 -> Binary64.round x < 0.
Proof.
  intros Hx. rewrite (round_of_neg x Hx).
  assert (0 < Binary64.round_pos (- Qred x)).
  { apply round_pos_positive. rewrite Qred_correct. lra. }
  lra.
Qed.

Lemma round_mono x y : x <= y -> Binary64.round x <= Binary64.round y.
Proof.
  intros Hxy.
  destruct (Q_dec x 0) as [[Hx|Hx]|Hx]; destruct (Q_dec y 0) as [[Hy|Hy]|Hy].
  - rewrite (round_of_neg x Hx), (round_of_neg y Hy).
    apply Qopp_le_compat. apply round_pos_mono; rewrite ?Qred_correct; lra.
  - pose proof (round_negative x Hx). pose proof (round_positive y Hy). lra.
  - pose proof (round_negative x Hx). rewrite (round_of_zero y Hy). lra.
  - lra.
  - rewrite (round_of_pos x Hx), (round_of_pos y Hy).
    apply round_pos_mono; rewrite ?Qred_correct; lra.
  - lra.
  - lra.
  - pose proof (round_positive y Hy). rewrite (round_of_zero x Hx). lra.
  - rewrite (round_of_zero x Hx), (round_of_zero y Hy). lra.
Qed.

Lemma round_nonneg x : 0 <= x -> 0 <= Binary64.round x.
Proof. intros Hx. apply (round_mono 0 x Hx). Qed.


#[local] Instance round_proper : Proper (Qeq ==> Qeq) Binary64.round.
Proof. intros x y E. rewrite (round_comp x y E). reflexivity. Qed.

(** ** Running the monad *)

Implicit Types (w : world) (g : G).

Lemma bind_ret {A B} (a : A) (k : A -> M B) w : bind (ret a) k w = k a w.
Proof. reflexivity. Qed.

Lemma bind_attr {A B} (f : CantileveredBeamProblem -> A) (k : A -> M B) w :
  bind (attr f) k w = k (f (self w)) w.
Proof. reflexivity. Qed.

Lemma bind_lift {A B} (o : outcome A) (k : A -> M B) w :
  bind (lift o) k w
  = match o with Returns a => k a w | Raises e => (Raises e, w) end.
Proof. destruct o; reflexivity. Qed.

Lemma bind_lift_eq {A B} (o : outcome A) a (k : A -> M B) w :
  o = Returns a -> bind (lift o) k w = k a w.
Proof. intros ->. reflexivity. Qed.

Lemma lift_eq {A} (o : outcome A) a w :
  o = Returns a -> lift o w = (Returns a, w).
Proof. intros ->. reflexivity. Qed.


Lemma bind_bind {A B C} (c : M A) (k1 : A -> M B) (k2 : B -> M C) w :
  bind (bind c k1) k2 w = bind c (fun a => bind (k1 a) k2) w.
Proof. unfold bind. destruct (c w) as [[a|e] w']; reflexivity. Qed.

Lemma bind_attempt {A B} (c : M A) (k : outcome A -> M B) w :
  bind (attempt c) k w = let (o, w') := c w in k o w'.
Proof. unfold bind, attempt. destruct (c w). reflexivity. Qed.

(** ** The literals and the attributes set by [__init__] *)

Lemma penalty_lit : float_lit 1000000000 = PENALTY.
Proof. vm_compute. reflexivity. Qed.

Lemma lit_12 : float_lit 12.0 = VFloat (Fin 12).
Proof. vm_compute. reflexivity. Qed.

Lemma lit_4 : float_lit 4.0 = VFloat (Fin 4).
Proof. vm_compute. reflexivity. Qed.

Lemma E_init : E __init__ = VFloat (Fin 10000000).
Proof. vm_compute. reflexivity. Qed.

Lemma round_int_1 : Binary64.round (inject_Z 1) = 1.
Proof. vm_compute. reflexivity. Qed.

Lemma round_int_2 : Binary64.round (inject_Z 2) = 2.
Proof. vm_compute. reflexivity. Qed.

Lemma round_int_3 : Binary64.round (inject_Z 3) = 3.
Proof. vm_compute. reflexivity. Qed.

Lemma round_int_36 : Binary64.round (inject_Z 36) = 36.
Proof. vm_compute. reflexivity. Qed.

Lemma round_3E : Binary64.round (3 * 10000000) = 30000000.
Proof. vm_compute. reflexivity. Qed.

Lemma round_PL3 :
  Binary64.round (inject_Z (1000 * 36 ^ Z.of_nat 3)) = 46656000.
Proof. vm_compute. reflexivity. Qed.

Lemma round_PL : Binary64.round (inject_Z (1000 * 36)) == inject_Z (1000 * 36).
Proof. vm_compute. reflexivity. Qed.

Lemma bounds_H :
  bounds __init__ !! "H"%string = Some (float_lit 3.0, float_lit 7.0).
Proof. reflexivity. Qed.

Lemma bounds_h1 : bounds __init__ !! "h1"%string = Some (VInt 0, VInt 7).
Proof. reflexivity. Qed.

Lemma bounds_b1 :
  bounds __init__ !! "b1"%string = Some (float_lit 2.0, float_lit 12.0).
Proof. reflexivity. Qed.

Lemma bounds_b2 :
  bounds __init__ !! "b2"%string = Some (float_lit 0.1, float_lit 2.0).
Proof. reflexivity. Qed.

Lemma bind_bound {B} name t i (k : pyval -> M B) w :
  self w = __init__ -> bounds __init__ !! name = Some t ->
  bind (bound name i) k w = k (i t) w.
Proof.
  intros Hs Hb. unfold bound. unfold bind at 1. unfold bind at 1.
  unfold attr, lift, ret, dict_getitem. rewrite Hs, Hb. reflexivity.
Qed.

Lemma between_comp lo lo' hi hi' x :
  lo == lo' -> hi == hi' -> between lo hi x = between lo' hi' x.
Proof.
  intros El Eh. unfold between. destruct x as [q| | |]; cbn; try reflexivity.
  rewrite (Qleb_comp _ _ El q q ltac:(reflexivity)).
  rewrite (Qleb_comp q q ltac:(reflexivity) _ _ Eh). reflexivity.
Qed.

Lemma bind_within {B} name lo hi x (k : bool -> M B) w :
  self w = __init__ ->
  bounds __init__ !! name = Some (float_lit lo, float_lit hi) ->
  bind (within name x) k w
  = match as_num x with
    | Some n => k (between (double lo) (double hi) (value n)) w
    | None => (Raises TypeError, w)
    end.
Proof.
  intros Hs Hb. unfold within.
  unfold bind at 1. erewrite bind_bound by eassumption.
  rewrite bind_lift. unfold py_le, py_cmp, between, float_lit.
  cbn [fst snd as_num value].
  destruct (as_num x) as [n|]; [|reflexivity].
  destruct (Float.le (Fin (double lo)) (value n)); cbn [andb].
  - erewrite bind_bound by eassumption. reflexivity.
  - reflexivity.
Qed.

Lemma table_lookup r :
  (0 <= r <= 7)%Z ->
  seq_getitem (possibleValues __init__) r
  = Returns (VFloat (Fin (flangeHeight r))).
Proof.
  intros Hr.
  assert (r = 0 \/ r = 1 \/ r = 2 \/ r = 3 \/ r = 4 \/ r = 5 \/ r = 6
          \/ r = 7)%Z as Hc by lia.
  repeat (destruct Hc as [-> | Hc]; [reflexivity|]). subst r. reflexivity.
Qed.

(** ** The operators on numbers *)

Lemma py_lt_int a b : py_lt (VInt a) (VInt b) = Returns (a <? b)%Z.
Proof.
  unfold py_lt, py_cmp. cbn. f_equal.
  unfold Qle_bool. cbn. rewrite !Z.mul_1_r.
  rewrite Z.ltb_antisym. reflexivity.
Qed.

Lemma py_gt_int a b : py_gt (VInt a) (VInt b) = Returns (b <? a)%Z.
Proof.
  unfold py_gt, py_cmp, flip. cbn. f_equal.
  unfold Qle_bool. cbn. rewrite !Z.mul_1_r.
  rewrite Z.ltb_antisym. reflexivity.
Qed.

Lemma between_fin lo hi x :
  between lo hi x = true -> exists q, x = Fin q /\ lo <= q /\ q <= hi.
Proof.
  unfold between. destruct x as [q| | |]; cbn; try discriminate.
  rewrite andb_true_iff, !Qle_bool_iff. eauto.
Qed.

Lemma between_intro lo hi q :
  lo <= q -> q <= hi -> between lo hi (Fin q) = true.
Proof.
  intros H1 H2. unfold between. cbn.
  apply andb_true_iff. split; apply Qle_bool_iff; assumption.
Qed.

(** A small [int] converts to [float] exactly. *)
Lemma to_float_small n q :
  value n = Fin q -> -16 <= q -> q <= 16 -> to_float n = Fin q.
Proof.
  destruct n as [z|f]; cbn; [|auto].
  intros [= <-] Hlo Hhi. f_equal.
  change (-16) with (inject_Z (-16)) in Hlo.
  change 16 with (inject_Z 16) in Hhi.
  rewrite <- Zle_Qle in Hlo, Hhi.
  assert (exists k, (k <= 32)%nat /\ z = (Z.of_nat k - 16)%Z) as (k & Hk & ->).
  { exists (Z.to_nat (z + 16)). lia. }
  do 33 (destruct k as [|k]; [vm_compute; reflexivity|]). lia.
Qed.

Lemma arith2_float_l fi ff x b n :
  as_num b = Some n ->
  arith2 fi ff (VFloat x) b = Returns (VFloat (ff x (to_float n))).
Proof. intros Hb. unfold arith2. rewrite Hb. destruct n; reflexivity. Qed.

Lemma arith2_float_r fi ff a y n :
  as_num a = Some n ->
  arith2 fi ff a (VFloat y) = Returns (VFloat (ff (to_float n) y)).
Proof. intros Ha. unfold arith2. rewrite Ha. destruct n; reflexivity. Qed.

Lemma py_truediv_float a b x y :
  as_num a = Some x -> as_num b = Some y ->
  Float.is_zero (to_float y) = false ->
  py_truediv a b = Returns (VFloat (Float.div (to_float x) (to_float y))).
Proof.
  intros Ha Hb Hz. unfold py_truediv. rewrite Ha, Hb, Hz. reflexivity.
Qed.

Lemma is_zero_pos q : 0 < q -> Float.is_zero (Fin q) = false.
Proof.
  intros Hq. cbn. destruct (Qeq_bool q 0) eqn:E; [|reflexivity].
  apply Qeq_bool_iff in E. lra.
Qed.

(** [z * v] for an [int] [z] that is a float: the product keeps the type
    of the number [v], and converts to the rounded product. *)
Lemma py_mul_int_num z v n q :
  Binary64.round (inject_Z z) == inject_Z z ->
  as_num v = Some n -> value n = Fin q -> to_float n = Fin q ->
  exists v' n',
    py_mul (VInt z) v = Returns v' /\ as_num v' = Some n' /\
    to_float n' = Fin (Binary64.round (inject_Z z * q)).
Proof.
  intros Hz Hv Hq Hq'. unfold py_mul, arith2. rewrite Hv. cbn [as_num].
  destruct n as [y|f]; cbn in Hq, Hq'.
  - injection Hq as <-.
    exists (VInt (z * y)), (NInt (z * y)).
    split; [reflexivity|]. split; [reflexivity|]. cbn [to_float].
    rewrite (round_comp _ _ (eq_subrelation _ _ _ (inject_Z_mult z y))).
    reflexivity.
  - subst f. eexists _, (NFloat _).
    split; [reflexivity|]. split; [reflexivity|].
    cbn [to_float Float.mul].
    rewrite (round_comp (Binary64.round (inject_Z z) * q) (inject_Z z * q))
      by (rewrite Hz; reflexivity).
    reflexivity.
Qed.

(** ** The method computes the closed form *)

Ltac solve_op :=
  first
    [ reflexivity
    | unfold py_add, py_sub, py_mul;
      first [eapply arith2_float_l | eapply arith2_float_r]; eassumption
    | eapply py_truediv_float; [eassumption || reflexivity ..| ] ].

Ltac solve_div :=
  eapply py_truediv_float;
  [ first [eassumption | reflexivity] ..
  | apply is_zero_pos, round_positive; lra ].

Ltac norm :=
  cbn [Float.mul Float.add Float.sub Float.neg Float.div Float.pow Float.le
       Float.lt flip to_float value as_num Z.of_nat Pos.of_succ_nat Pos.succ];
  repeat match goal with
         | Hf : to_float ?n = Fin _ |- context [to_float ?n] => rewrite Hf
         end;
  cbn [Float.mul Float.add Float.sub Float.neg Float.div Float.pow Float.le
       Float.lt flip to_float value as_num Z.of_nat Pos.of_succ_nat Pos.succ];
  rewrite ?round_int_1, ?round_int_2, ?round_int_3, ?round_int_36.

Ltac pure_step := erewrite bind_lift_eq by solve_op; norm.

Ltac attr_step :=
  rewrite bind_attr;
  match goal with Hs : self _ = __init__ |- _ => rewrite Hs end;
  rewrite ?E_init;
  cbn [P L possibleValues __init__].

Lemma evaluate_solution_seq solution vH x1 vb1 vb2 w :
  sequence_of solution [vH; x1; vb1; vb2] ->
  self w = __init__ ->
  evaluate_solution solution w = (summary4 vH x1 vb1 vb2, w).
Proof.
  intros Hseq Hs.
  assert (evaluate_solution solution w
          = evaluate_solution (VList [vH; x1; vb1; vb2]) w) as ->
    by (destruct Hseq as [-> | ->]; reflexivity).
  unfold evaluate_solution, summary4. cbv zeta.
  rewrite penalty_lit, lit_12, lit_4.
  cbn [length Nat.eqb negb].
  Opaque Binary64.round.
  rewrite (bind_lift_eq _ vH) by reflexivity.
  rewrite (bind_lift_eq _ x1) by reflexivity.
  rewrite bind_lift. destruct (py_round x1) as [r|e]; [|reflexivity].
  unfold py_int.
  erewrite bind_bound by (first [eassumption | exact bounds_h1]). cbn [fst].
  rewrite (bind_lift_eq _ _ _ _ (py_lt_int _ _)).
  destruct (r <? 0)%Z eqn:Hlo; cbn [orb]; [reflexivity|].
  cbv beta iota. rewrite bind_bind.
  erewrite bind_bound by (first [eassumption | exact bounds_h1]). cbn [snd].
  rewrite (bind_lift_eq _ _ _ _ (py_gt_int _ _)).
  destruct (7 <? r)%Z eqn:Hhi; [reflexivity|].
  apply Z.ltb_ge in Hlo, Hhi.
  rewrite bind_attr, Hs.
  rewrite (bind_lift_eq _ _ _ _ (table_lookup r (conj Hlo Hhi))).
  rewrite (bind_lift_eq _ vb1) by reflexivity.
  rewrite (bind_lift_eq _ vb2) by reflexivity.
  (* the three chained comparisons *)
  rewrite (bind_within _ _ _ _ _ _ Hs bounds_H).
  destruct (as_num vH) as [nH|] eqn:HnH; [|reflexivity].
  rewrite (between_comp (double 3.0) 3.0 (double 7.0) 7.0)
    by (vm_compute; reflexivity).
  destruct (between 3.0 7.0 (value nH)) eqn:HbH; cbn [negb];
    [|reflexivity].
  rewrite (bind_within _ _ _ _ _ _ Hs bounds_b1).
  destruct (as_num vb1) as [nb1|] eqn:Hnb1; [|reflexivity].
  rewrite (between_comp (double 2.0) 2.0 (double 12.0) 12.0)
    by (vm_compute; reflexivity).
  destruct (between 2.0 12.0 (value nb1)) eqn:Hbb1; cbn [negb];
    [|reflexivity].
  rewrite (bind_within _ _ _ _ _ _ Hs bounds_b2).
  destruct (as_num vb2) as [nb2|] eqn:Hnb2; [|reflexivity].
  rewrite (between_comp (double 0.1) (double 0.1) (double 2.0) 2.0)
    by (vm_compute; reflexivity).
  destruct (between (double 0.1) 2.0 (value nb2)) eqn:Hbb2; cbn [negb];
    [|reflexivity].
  apply between_fin in HbH as (H & HH & HH1 & HH2).
  apply between_fin in Hbb1 as (b1 & Hb1 & Hb11 & Hb12).
  apply between_fin in Hbb2 as (b2 & Hb2 & Hb21 & Hb22).
  assert (0 <= double 0.1) as Hd by (vm_compute; discriminate).
  pose proof (to_float_small nH H HH ltac:(lra) ltac:(lra)) as FH.
  pose proof (to_float_small nb1 b1 Hb1 ltac:(lra) ltac:(lra)) as Fb1.
  pose proof (to_float_small nb2 b2 Hb2 ltac:(lra) ltac:(lra)) as Fb2.
  rewrite HH, Hb1, Hb2.
  (* the [try] block: no operation in it can raise *)
  rewrite bind_attempt.
  do 17 pure_step.
  erewrite lift_eq by solve_op. norm. cbv beta iota.
  match goal with
  | |- context [py_le (VFloat (Fin ?X)) (VInt 0)] =>
      change X with (inertia64 H (flangeHeight r) b1 b2)
  end.
  set (fh := flangeHeight r). set (I_ := inertia64 H fh b1 b2).
  pure_step. change (inject_Z 0) with 0.
  unfold physics. fold I_.
  destruct (Qle_bool I_ 0) eqn:HI; [reflexivity|].
  assert (0 < I_) as HIpos.
  { apply Qnot_le_lt. intros Hle. apply Qle_bool_iff in Hle. congruence. }
  (* g1 *)
  do 2 attr_step. pure_step.
  destruct (py_mul_int_num (1000 * 36) vH nH H round_PL HnH HH FH)
    as (plh & nplh & Eplh & Enplh & Eq).
  rewrite (bind_lift_eq _ _ _ _ Eplh).
  pure_step.
  erewrite bind_lift_eq by solve_div.
  norm.
  (* g2 *)
  do 2 attr_step. do 2 pure_step. attr_step. pure_step. rewrite round_3E.
  pure_step.
  erewrite bind_lift_eq by solve_div.
  norm. rewrite round_PL3.
  (* the two constraints *)
  pure_step.
  match goal with
  | |- context [Qle_bool ?X (inject_Z 5000)] =>
      change (Qle_bool X (inject_Z 5000))
        with (Qle_bool (stress64 H I_) 5000)
  end.
  destruct (Qle_bool (stress64 H I_) 5000); cbn [negb orb]; [|reflexivity].
  cbv beta iota.
  pure_step.
  match goal with
  | |- context [Qle_bool ?X (double 0.10)] =>
      change X with (deflection64 I_)
  end.
  destruct (Qle_bool (deflection64 I_) (double 0.10)); cbn [negb];
    [|reflexivity].
  (* the volume *)
  do 6 pure_step. attr_step. pure_step.
  reflexivity.
Qed.

Transparent Binary64.round.

Lemma evaluate_solution_summary solution w :
  self w = __init__ ->
  evaluate_solution solution w = (summary solution, w).
Proof.
  intros Hs.
  destruct solution as [ | | | | |l|l];
    try (unfold evaluate_solution; rewrite penalty_lit; reflexivity).
  - destruct l as [|vH [|x1 [|vb1 [|vb2 [|x l]]]]];
      try (unfold evaluate_solution; rewrite penalty_lit; reflexivity).
    apply evaluate_solution_seq; [left; reflexivity | assumption].
  - destruct l as [|vH [|x1 [|vb1 [|vb2 [|x l]]]]];
      try (unfold evaluate_solution; rewrite penalty_lit; reflexivity).
    apply evaluate_solution_seq; [right; reflexivity | assumption].
Qed.

(** ** Arithmetic of the closed forms *)

Lemma cube_eq (x : Q) : x ^ 3 == x * x * x.
Proof. cbn. ring. Qed.

Lemma square_eq (x : Q) : x ^ 2 == x * x.
Proof. cbn. ring. Qed.

Lemma round_1 : Binary64.round 1 = 1.
Proof. vm_compute. reflexivity. Qed.

Lemma round_2 : Binary64.round 2 = 2.
Proof. vm_compute. reflexivity. Qed.

Lemma twelfth_pos : 0 < twelfth.
Proof. vm_compute. reflexivity. Qed.

Lemma double_tenth : 1 # 10 <= double 0.1 /\ double 0.1 <= 11 # 100.
Proof. split; vm_compute; discriminate. Qed.

Lemma flangeHeight_range r :
  (0 <= r <= 7)%Z -> double 0.1 <= flangeHeight r /\ flangeHeight r <= 1.
Proof.
  intros Hr.
  assert (r = 0 \/ r = 1 \/ r = 2 \/ r = 3 \/ r = 4 \/ r = 5 \/ r = 6
          \/ r = 7)%Z as Hc by lia.
  repeat (destruct Hc as [-> | Hc]; [vm_compute; split; discriminate|]).
  subst r. vm_compute; split; discriminate.
Qed.

Lemma flangeHeight_pos r :
  (0 <= r <= 7)%Z -> 1 # 10 <= flangeHeight r /\ flangeHeight r <= 1.
Proof.
  intros Hr. destruct (flangeHeight_range r Hr). destruct double_tenth.
  split; lra.
Qed.

(** *** The exact quantities *)



(** *** Signs and monotonicity of the computed quantities *)

Lemma cube_pos x : 0 < x -> 0 < x ^ 3.
Proof. intros. rewrite cube_eq. assert (0 < x * x) by nra. nra. Qed.

Lemma square_pos x : 0 < x -> 0 < x ^ 2.
Proof. intros. rewrite square_eq. nra. Qed.

Lemma cube_mono x y : 0 <= x -> x <= y -> x ^ 3 <= y ^ 3.
Proof.
  intros. rewrite !cube_eq.
  assert (x * x <= y * y) by nra. assert (0 <= x * x) by nra.
  assert (x * x * x <= y * y * x) by nra.
  assert (0 <= y * y) by nra. nra.
Qed.

Lemma square_mono x y : 0 <= x -> x <= y -> x ^ 2 <= y ^ 2.
Proof. intros. rewrite !square_eq. nra. Qed.

Lemma round_flange_le_2 fh : fh <= 1 -> Binary64.round (2 * fh) <= 2.
Proof.
  intros Hf. rewrite <- round_2 at 2. apply round_mono. lra.
Qed.

Lemma web64_ge_1 H fh : 3 <= H -> fh <= 1 -> 1 <= web64 H fh.
Proof.
  intros HH Hf. unfold web64. rewrite <- round_1 at 1.
  apply round_mono. pose proof (round_flange_le_2 fh Hf). lra.
Qed.

Lemma web64_mono H H' fh : H <= H' -> web64 H fh <= web64 H' fh.
Proof. intros. unfold web64. apply round_mono. lra. Qed.

Lemma round_mul_mono a b c d :
  0 <= a -> a <= c -> 0 <= b -> b <= d ->
  Binary64.round (a * b) <= Binary64.round (c * d).
Proof. intros. apply round_mono. nra. Qed.

Lemma round_mul_pos a b : 0 < a -> 0 < b -> 0 < Binary64.round (a * b).
Proof. intros. apply round_positive. nra. Qed.

Lemma inertia64_pos H fh b1 b2 :
  3 <= H -> 0 < fh -> fh <= 1 -> 0 < b1 -> 0 < b2 ->
  0 < inertia64 H fh b1 b2.
Proof.
  intros HH Hf0 Hf1 Hb1 Hb2. unfold inertia64. cbv zeta.
  pose proof twelfth_pos as Ht.
  pose proof (web64_ge_1 H fh HH Hf1) as Hw.
  assert (0 < Binary64.round (web64 H fh ^ 3)) as P1
    by (apply round_positive, cube_pos; lra).
  assert (0 < Binary64.round (twelfth * b2)) as P2
    by (apply round_mul_pos; assumption).
  assert (0 < Binary64.round (fh ^ 3)) as P3
    by (apply round_positive, cube_pos; assumption).
  assert (0 < Binary64.round (twelfth * b1)) as P4
    by (apply round_mul_pos; assumption).
  assert (0 < Binary64.round (b1 * fh)) as P5
    by (apply round_mul_pos; assumption).
  assert (0 < Binary64.round (H - fh)) as P6
    by (apply round_positive; lra).
  assert (0 < Binary64.round (Binary64.round (H - fh) ^ 2)) as P7
    by (apply round_positive, square_pos; assumption).
  set (t1 := Binary64.round (Binary64.round (twelfth * b2)
                             * Binary64.round (web64 H fh ^ 3))).
  assert (0 < t1) as T1 by (apply round_mul_pos; assumption).
  set (own := Binary64.round (Binary64.round (twelfth * b1)
                              * Binary64.round (fh ^ 3))).
  assert (0 < own) as O1 by (apply round_mul_pos; assumption).
  set (sh := Binary64.round (Binary64.round (b1 * fh)
                             * Binary64.round (Binary64.round (H - fh) ^ 2))).
  assert (0 < sh) as S1 by (apply round_mul_pos; assumption).
  set (qu := Binary64.round (sh / 4)).
  assert (0 < qu) as Q1.
  { apply round_positive. apply Qlt_shift_div_l; lra. }
  set (fl := Binary64.round (own + qu)).
  assert (0 < fl) as F1 by (apply round_positive; lra).
  set (t2 := Binary64.round (2 * fl)).
  assert (0 < t2) as T2 by (apply round_positive; lra).
  apply round_positive. lra.
Qed.

Lemma inertia64_mono H fh b1 b1' b2 b2' :
  3 <= H -> 0 < fh -> fh <= 1 -> 0 < b1 -> b1 <= b1' -> 0 < b2 -> b2 <= b2' ->
  inertia64 H fh b1 b2 <= inertia64 H fh b1' b2'.
Proof.
  intros HH Hf0 Hf1 Hb1 Hb1' Hb2 Hb2'. unfold inertia64. cbv zeta.
  pose proof twelfth_pos as Ht.
  pose proof (web64_ge_1 H fh HH Hf1) as Hw.
  assert (0 <= Binary64.round (web64 H fh ^ 3)) as P1
    by (apply Qlt_le_weak, round_positive, cube_pos; lra).
  assert (0 <= Binary64.round (fh ^ 3)) as P3
    by (apply Qlt_le_weak, round_positive, cube_pos; assumption).
  assert (0 <= Binary64.round (Binary64.round (H - fh) ^ 2)) as P7.
  { apply Qlt_le_weak, round_positive, square_pos, round_positive. lra. }
  apply round_mono. apply Qplus_le_compat.
  - apply round_mul_mono; try lra.
    + apply round_nonneg. nra.
    + apply round_mono. nra.
  - apply round_mono.
    apply Qmult_le_l; [reflexivity|].
    apply round_mono. apply Qplus_le_compat.
    + apply round_mul_mono; try lra.
      * apply round_nonneg. nra.
      * apply round_mono. nra.
    + apply round_mono.
      apply Qmult_le_compat_r; [|discriminate].
      apply round_mul_mono; try lra.
      * apply round_nonneg. nra.
      * apply round_mono. nra.
Qed.

Lemma div_antitone n d d' : 0 <= n -> 0 < d -> d <= d' -> n / d' <= n / d.
Proof.
  intros Hn Hd Hdd.
  apply Qle_shift_div_l; [lra|].
  assert (n / d' * d' == n) as E by (field; lra).
  assert (0 <= n / d') as Hq by (apply Qle_shift_div_l; lra).
  nra.
Qed.

Lemma stress64_antitone H I_ I' :
  0 <= H -> 0 < I_ -> I_ <= I' -> stress64 H I' <= stress64 H I_.
Proof.
  intros HH HI HII. unfold stress64. cbv zeta.
  apply round_mono. apply div_antitone.
  - apply round_nonneg. lra.
  - apply round_positive. lra.
  - apply round_mono. lra.
Qed.

Lemma deflection64_antitone I_ I' :
  0 < I_ -> I_ <= I' -> deflection64 I' <= deflection64 I_.
Proof.
  intros HI HII. unfold deflection64. cbv zeta.
  apply round_mono. apply div_antitone.
  - discriminate.
  - apply round_positive. lra.
  - apply round_mono. lra.
Qed.

Lemma volume64_mono H H' fh b1 b1' b2 b2' :
  3 <= H -> H <= H' -> 0 <= fh -> fh <= 1 ->
  0 <= b1 -> b1 <= b1' -> 0 <= b2 -> b2 <= b2' ->
  volume64 H fh b1 b2 <= volume64 H' fh b1' b2'.
Proof.
  intros HH HH' Hf0 Hf1 Hb1 Hb1' Hb2 Hb2'. unfold volume64. cbv zeta.
  pose proof (web64_ge_1 H fh HH Hf1) as Hw.
  pose proof (web64_mono H H' fh HH') as Hwm.
  apply round_mono. apply Qmult_le_compat_r; [|discriminate].
  apply round_mono. apply Qplus_le_compat.
  - apply round_mul_mono; try lra. apply round_nonneg. lra.
  - apply round_mul_mono; lra.
Qed.

Lemma volume64_pos H fh b1 b2 :
  3 <= H -> 0 < fh -> fh <= 1 -> 0 < b1 -> 0 < b2 ->
  0 < volume64 H fh b1 b2.
Proof.
  intros HH Hf0 Hf1 Hb1 Hb2. unfold volume64. cbv zeta.
  pose proof (web64_ge_1 H fh HH Hf1) as Hw.
  assert (0 < Binary64.round (2 * fh)) by (apply round_positive; lra).
  assert (0 < Binary64.round (Binary64.round (2 * fh) * b1))
    by (apply round_mul_pos; assumption).
  assert (0 < Binary64.round (web64 H fh * b2))
    by (apply round_mul_pos; lra).
  apply round_positive.
  assert (0 < Binary64.round
                (Binary64.round (Binary64.round (2 * fh) * b1)
                 + Binary64.round (web64 H fh * b2)))
    by (apply round_positive; lra).
  lra.
Qed.

Lemma volume64_corner r :
  (0 <= r <= 7)%Z -> volume64 7 (flangeHeight r) 12 2 <= 1224.
Proof.
  intros Hr.
  assert (r = 0 \/ r = 1 \/ r = 2 \/ r = 3 \/ r = 4 \/ r = 5 \/ r = 6
          \/ r = 7)%Z as Hc by lia.
  repeat (destruct Hc as [-> | Hc]; [vm_compute; discriminate|]).
  subst r. vm_compute; discriminate.
Qed.

Lemma volume64_range H r b1 b2 :
  (0 <= r <= 7)%Z -> 3 <= H -> H <= 7 -> 2 <= b1 -> b1 <= 12 ->
  double 0.1 <= b2 -> b2 <= 2 ->
  0 < volume64 H (flangeHeight r) b1 b2
  /\ volume64 H (flangeHeight r) b1 b2 <= 1224.
Proof.
  intros Hr HH1 HH2 Hb11 Hb12 Hb21 Hb22.
  destruct (flangeHeight_pos r Hr) as [Hf0 Hf1]. destruct double_tenth.
  split.
  - apply volume64_pos; lra.
  - eapply Qle_trans; [|apply (volume64_corner r Hr)].
    apply volume64_mono; lra.
Qed.

(** *** The rounding error of the volume *)









(** ** The decision within the bounds *)

Lemma physics_feasible H fh b1 b2 :
  0 < inertia64 H fh b1 b2 ->
  stress64 H (inertia64 H fh b1 b2) <= 5000 ->
  deflection64 (inertia64 H fh b1 b2) <= double 0.10 ->
  physics H fh b1 b2 = VFloat (Fin (volume64 H fh b1 b2)).
Proof.
  intros HI Hg1 Hg2. unfold physics. cbv zeta.
  destruct (Qle_bool (inertia64 H fh b1 b2) 0) eqn:E.
  { apply Qle_bool_iff in E. lra. }
  apply Qle_bool_iff in Hg1, Hg2. rewrite Hg1, Hg2. reflexivity.
Qed.

Lemma physics_violated H fh b1 b2 :
  5000 < stress64 H (inertia64 H fh b1 b2)
  \/ double 0.10 < deflection64 (inertia64 H fh b1 b2) ->
  physics H fh b1 b2 = PENALTY.
Proof.
  intros Hv. unfold physics. cbv zeta.
  destruct (Qle_bool (inertia64 H fh b1 b2) 0); [reflexivity|].
  destruct (Qle_bool (stress64 H _) 5000) eqn:E1; [|reflexivity].
  destruct (Qle_bool (deflection64 _) (double 0.10)) eqn:E2; [|reflexivity].
  apply Qle_bool_iff in E1, E2. destruct Hv as [Hv | Hv]; lra.
Qed.



Lemma number_value_inv v x :
  number_value v = Some x -> exists n, as_num v = Some n /\ value n = x.
Proof.
  unfold number_value. destruct (as_num v) as [n|]; [|discriminate].
  intros [= <-]. eauto.
Qed.

Lemma index_in_range r :
  (0 <= r <= 7)%Z -> (r <? 0)%Z || (7 <? r)%Z = false.
Proof. intros. apply orb_false_iff. split; apply Z.ltb_ge; lia. Qed.

Lemma summary4_in_bounds vH x1 vb1 vb2 r H b1 b2 :
  number_value vH = Some (Fin H) -> py_round x1 = Returns r ->
  number_value vb1 = Some (Fin b1) -> number_value vb2 = Some (Fin b2) ->
  (0 <= r <= 7)%Z -> 3.0 <= H <= 7.0 -> 2.0 <= b1 <= 12.0 ->
  double 0.1 <= b2 <= 2.0 ->
  summary4 vH x1 vb1 vb2 = Returns (physics H (flangeHeight r) b1 b2).
Proof.
  intros HvH Hr Hvb1 Hvb2 Hrange [HH1 HH2] [Hb11 Hb12] [Hb21 Hb22].
  apply number_value_inv in HvH as (nH & NH & EH).
  apply number_value_inv in Hvb1 as (nb1 & Nb1 & Eb1).
  apply number_value_inv in Hvb2 as (nb2 & Nb2 & Eb2).
  unfold summary4. rewrite Hr, NH, Nb1, Nb2, EH, Eb1, Eb2.
  rewrite (index_in_range r Hrange).
  rewrite !between_intro by assumption. reflexivity.
Qed.

Lemma run_evaluate_solution solution g :
  run (evaluate_solution solution) (world0 g) = summary solution.
Proof.
  unfold run. rewrite evaluate_solution_summary by reflexivity. reflexivity.
Qed.

Lemma summary_seq solution vH x1 vb1 vb2 :
  sequence_of solution [vH; x1; vb1; vb2] ->
  summary solution = summary4 vH x1 vb1 vb2.
Proof. intros [-> | ->]; reflexivity. Qed.

(** ** The evaluator reads the world and never writes it *)

Lemma readonly_ret {A} (a : A) : readonly (ret a).
Proof. intros w. reflexivity. Qed.

Lemma readonly_lift {A} (o : outcome A) : readonly (lift o).
Proof. intros w. reflexivity. Qed.

Lemma readonly_attr {A} (f : CantileveredBeamProblem -> A) :
  readonly (attr f).
Proof. intros w. reflexivity. Qed.

Lemma readonly_bind {A B} (c : M A) (k : A -> M B) :
  readonly c -> (forall a, readonly (k a)) -> readonly (bind c k).
Proof.
  intros Hc Hk w. unfold bind. specialize (Hc w).
  destruct (c w) as [[a|e] w']; cbn in Hc; subst w'.
  - apply Hk.
  - reflexivity.
Qed.

Lemma readonly_attempt {A} (c : M A) : readonly c -> readonly (attempt c).
Proof.
  intros Hc w. unfold attempt. specialize (Hc w).
  destruct (c w) as [o w']. exact Hc.
Qed.

Ltac readonly_tac :=
  repeat first
    [ apply readonly_ret
    | apply readonly_lift
    | apply readonly_attr
    | apply readonly_attempt
    | apply readonly_bind; [|intros ?]
    | match goal with
      | |- readonly (if ?b then _ else _) => destruct b
      | |- readonly (match ?o with Returns _ => _ | Raises _ => _ end) =>
          destruct o
      end ].

Lemma readonly_bound name i : readonly (bound name i).
Proof. unfold bound. readonly_tac. Qed.

Lemma readonly_within name x : readonly (within name x).
Proof. unfold within. readonly_tac; apply readonly_bound. Qed.

Lemma readonly_evaluate_solution solution :
  readonly (evaluate_solution solution).
Proof.
  unfold evaluate_solution.
  generalize (float_lit 1000000000) (float_lit 12.0) (float_lit 4.0)
    (float_lit 0.10).
  intros penalty twelve four tenth.
  destruct solution; try apply readonly_ret;
    readonly_tac;
    first [apply readonly_bound | apply readonly_within].
Qed.

(** C7. [evaluate_solution] is deterministic and free of side effects:
    whatever the attributes of [self] and the state of the generator, a call
    leaves the world exactly as it found it, and a second call on the same
    candidate, made in the world the first one left, returns (or raises)
    the identical result. *)
Theorem evaluate_solution_pure solution w :
  snd (evaluate_solution solution w) = w
  /\ evaluate_solution solution (snd (evaluate_solution solution w))
     = evaluate_solution solution w.
Proof.
  pose proof (readonly_evaluate_solution solution w) as Hw.
  split; [exact Hw | rewrite Hw; reflexivity].
Qed.

(** ** The objective on feasible and infeasible candidates *)




(** Bounds violations on a candidate of four numbers whose [h1] is finite:
    the penalty. *)
Lemma evaluate_solution_out_of_bounds
    solution vH x1 vb1 vb2 r fH fb1 fb2 g :
  sequence_of solution [vH; x1; vb1; vb2] ->
  number_value vH = Some fH -> py_round x1 = Returns r ->
  number_value vb1 = Some fb1 -> number_value vb2 = Some fb2 ->
  (r < 0 \/ 7 < r)%Z \/ between 3.0 7.0 fH = false
  \/ between 2.0 12.0 fb1 = false \/ between (double 0.1) 2.0 fb2 = false ->
  run (evaluate_solution solution) (world0 g) = Returns PENALTY.
Proof.
  intros Hseq HvH Hr Hvb1 Hvb2 Hout.
  rewrite run_evaluate_solution, (summary_seq _ _ _ _ _ Hseq).
  apply number_value_inv in HvH as (nH & NH & EH).
  apply number_value_inv in Hvb1 as (nb1 & Nb1 & Eb1).
  apply number_value_inv in Hvb2 as (nb2 & Nb2 & Eb2).
  unfold summary4. rewrite Hr, NH, Nb1, Nb2, EH, Eb1, Eb2.
  destruct ((r <? 0)%Z || (7 <? r)%Z) eqn:Er; [reflexivity|].
  apply orb_false_iff in Er as [E1 E2]. apply Z.ltb_ge in E1, E2.
  destruct (between 3.0 7.0 fH) eqn:EbH; [|reflexivity].
  destruct (between 2.0 12.0 fb1) eqn:Ebb1; [|reflexivity].
  destruct (between (double 0.1) 2.0 fb2) eqn:Ebb2; [|reflexivity].
  destruct Hout as [Hout | [Hout | [Hout | Hout]]];
    first [lia | discriminate].
Qed.

(** ** The range of the results *)

Lemma physics_range H r b1 b2 :
  (0 <= r <= 7)%Z -> 3 <= H -> H <= 7 -> 2 <= b1 -> b1 <= 12 ->
  double 0.1 <= b2 -> b2 <= 2 ->
  physics H (flangeHeight r) b1 b2 = PENALTY
  \/ exists q, physics H (flangeHeight r) b1 b2 = VFloat (Fin q) /\ 0 < q
              /\ q <= 1224.
Proof.
  intros. unfold physics. cbv zeta.
  destruct (Qle_bool (inertia64 H (flangeHeight r) b1 b2) 0);
    [left; reflexivity|].
  destruct (negb _ || negb _); [left; reflexivity|].
  right. exists (volume64 H (flangeHeight r) b1 b2). split; [reflexivity|].
  apply volume64_range; assumption.
Qed.

Lemma summary4_range vH x1 vb1 vb2 v :
  summary4 vH x1 vb1 vb2 = Returns v ->
  v = PENALTY \/ exists q, v = VFloat (Fin q) /\ 0 < q /\ q <= 1224.
Proof.
  unfold summary4.
  destruct (py_round x1) as [r|e]; [|discriminate].
  destruct ((r <? 0)%Z || (7 <? r)%Z) eqn:Er; [intros [= <-]; auto|].
  apply orb_false_iff in Er as [E1 E2]. apply Z.ltb_ge in E1, E2.
  destruct (as_num vH) as [nH|]; [|discriminate].
  destruct (between 3.0 7.0 (value nH)) eqn:EH; cbn [negb];
    [|intros [= <-]; auto].
  destruct (as_num vb1) as [nb1|]; [|discriminate].
  destruct (between 2.0 12.0 (value nb1)) eqn:Eb1; cbn [negb];
    [|intros [= <-]; auto].
  destruct (as_num vb2) as [nb2|]; [|discriminate].
  destruct (between (double 0.1) 2.0 (value nb2)) eqn:Eb2; cbn [negb];
    [|intros [= <-]; auto].
  apply between_fin in EH as (H & -> & ? & ?).
  apply between_fin in Eb1 as (b1 & -> & ? & ?).
  apply between_fin in Eb2 as (b2 & -> & ? & ?).
  intros [= <-].
  apply physics_range; first [split; assumption | assumption | lra].
Qed.

Lemma summary_range solution v :
  summary solution = Returns v ->
  v = PENALTY \/ exists q, v = VFloat (Fin q) /\ 0 < q /\ q <= 1224.
Proof.
  destruct solution as [ | | | | |l|l]; try (intros [= <-]; auto);
    destruct l as [|vH [|x1 [|vb1 [|vb2 [|x l]]]]];
    try (intros [= <-]; auto); apply summary4_range.
Qed.

(** C10. Whenever [evaluate_solution] returns, the result is either exactly
    the penalty [1e9] or a strictly positive volume of at most
    [(2*1.0*12.0 + (7.0 - 0.2)*2.0)*36 = 1353.6], hence below the penalty:
    the two cannot be confused. *)
Theorem evaluate_solution_range solution g v :
  run (evaluate_solution solution) (world0 g) = Returns v ->
  (v = PENALTY
   \/ exists q, v = VFloat (Fin q) /\ 0 < q
               /\ q <= (2 * 1.0 * 12.0 + (7.0 - 0.2) * 2.0) * 36
               /\ q < 1000000000)
  /\ (2 * 1.0 * 12.0 + (7.0 - 0.2) * 2.0) * 36 == 1353.6.
Proof.
  rewrite run_evaluate_solution. intros Hv. split; [|reflexivity].
  destruct (summary_range _ _ Hv) as [-> | (q & -> & Hq1 & Hq2)];
    [left; reflexivity|].
  right. exists q. repeat split; try assumption; lra.
Qed.

(** ** Malformed input *)

Lemma py_round_finite v q :
  number_value v = Some (Fin q) -> exists r, py_round v = Returns r.
Proof.
  unfold number_value.
  destruct v as [ |b|z|[q'| | |]|s|l|l]; cbn; try discriminate; eauto.
Qed.

Lemma physics_float H fh b1 b2 :
  exists q, physics H fh b1 b2 = VFloat (Fin q).
Proof.
  unfold physics, PENALTY. cbv zeta.
  destruct (Qle_bool _ 0); [eauto|]. destruct (negb _ || negb _); eauto.
Qed.

Lemma not_four_items_penalty solution w :
  ~ four_items solution ->
  evaluate_solution solution w = (Returns PENALTY, w).
Proof.
  intros Hnot. unfold evaluate_solution. cbv zeta. rewrite penalty_lit.
  destruct solution as [ | | | | |l|l]; try reflexivity;
    (destruct (length l =? 4)%nat eqn:E; [|reflexivity]);
    exfalso; apply Hnot; exists l; apply Nat.eqb_eq in E;
    (split; [|exact E]); [left | right]; reflexivity.
Qed.

(** C2, as the code has it. An input that is not a list or tuple of
    exactly four elements is given exactly the penalty [1e9], in every world;
    the type of the elements is not part of that check. *)
Theorem evaluate_solution_arity_penalty solution w :
  ~ four_items solution ->
  run (evaluate_solution solution) w = Returns PENALTY.
Proof.
  intros Hnot. unfold run.
  rewrite not_four_items_penalty by assumption. reflexivity.
Qed.

(** C1, as the code has it. On every input that is not a list or tuple of
    four elements, and on every list or tuple of four numbers ([bool],
    [int], [float]) whose second element is finite, [evaluate_solution]
    returns a finite float and does not raise; [H], [b1] and [b2] may be
    [nan] or infinite. *)
Theorem evaluate_solution_total_on_numbers solution g :
  ~ four_items solution \/ four_numbers solution ->
  exists q,
    run (evaluate_solution solution) (world0 g) = Returns (VFloat (Fin q)).
Proof.
  intros [Hnot | (vH & x1 & vb1 & vb2 & q & Hseq & HvH & Hx1 & Hvb1 & Hvb2)].
  - unfold run. rewrite not_four_items_penalty by assumption.
    eexists. reflexivity.
  - rewrite run_evaluate_solution, (summary_seq _ _ _ _ _ Hseq).
    destruct (py_round_finite _ _ Hx1) as [r Hr].
    unfold number_value in HvH, Hvb1, Hvb2.
    unfold summary4, PENALTY. rewrite Hr.
    destruct ((r <? 0)%Z || (7 <? r)%Z); [eauto|].
    destruct (as_num vH) as [nH|]; [|congruence].
    destruct (negb (between 3.0 7.0 (value nH))); [eauto|].
    destruct (as_num vb1) as [nb1|]; [|congruence].
    destruct (negb (between 2.0 12.0 (value nb1))); [eauto|].
    destruct (as_num vb2) as [nb2|]; [|congruence].
    destruct (negb (between (double 0.1) 2.0 (value nb2))); [eauto|].
    destruct (value nH) as [H| | |], (value nb1) as [b1| | |],
      (value nb2) as [b2| | |]; eauto.
    destruct (physics_float H (flangeHeight r) b1 b2) as [v ->]. eauto.
Qed.

(** ** The worked example *)

(** C8. For the candidate [[5.0, 7, 5.0, 1.0]] the flange height is 1.0,
    both constraints hold, for the exact [I] and for the [I] the code
    computes, and the result is the volume
    [(2*1.0*5.0 + (5.0 - 2.0)*1.0)*36 = 468.0]. *)
Theorem evaluate_solution_example g :
  let solution :=
    VList [VFloat (Fin 5.0); VInt 7; VFloat (Fin 5.0); VFloat (Fin 1.0)] in
  let I_ := inertia 5.0 (flangeHeight 7) 5.0 1.0 in
  flangeHeight 7 == 1.0
  /\ stress 5.0 I_ <= 5000 /\ deflection I_ <= 0.10
  /\ returns_float (run (evaluate_solution solution) (world0 g)) 468.0
  /\ (2 * 1.0 * 5.0 + (5.0 - 2.0) * 1.0) * 36 == 468.0
  /\ stress64 5.0 (inertia64 5.0 (flangeHeight 7) 5.0 1.0) <= 5000
  /\ deflection64 (inertia64 5.0 (flangeHeight 7) 5.0 1.0) <= double 0.10.
Proof.
  intros solution I_.
  split; [vm_compute; reflexivity|].
  split; [vm_compute; discriminate|].
  split; [vm_compute; discriminate|].
  split.
  { rewrite run_evaluate_solution.
    exists 468. split; [vm_compute; reflexivity | reflexivity]. }
  split; [reflexivity|].
  split; vm_compute; discriminate.
Qed.

(** ** Sampling *)






(** ** The order of the checks *)

(** X1. The index check comes first: when [round(h1)] is outside 0..7 the
    result is the penalty whatever the three other elements are, numbers or
    not. *)
Theorem evaluate_solution_index_check_first
    solution vH x1 vb1 vb2 r g :
  sequence_of solution [vH; x1; vb1; vb2] ->
  py_round x1 = Returns r -> (r < 0 \/ 7 < r)%Z ->
  run (evaluate_solution solution) (world0 g) = Returns PENALTY.
Proof.
  intros Hseq Hr Hout.
  rewrite run_evaluate_solution, (summary_seq _ _ _ _ _ Hseq).
  unfold summary4. rewrite Hr.
  replace ((r <? 0)%Z || (7 <? r)%Z) with true; [reflexivity|].
  symmetry. apply orb_true_iff.
  destruct Hout; [left | right]; apply Z.ltb_lt; assumption.
Qed.

(** X2. A failed bounds check hides the elements after it: with the index
    in range, a number [H] outside [3.0, 7.0] gives the penalty whatever
    [b1] and [b2] are, and with [H] inside, a number [b1] outside
    [2.0, 12.0] gives the penalty whatever [b2] is. *)
Theorem evaluate_solution_bounds_shield
    solution vH x1 vb1 vb2 r fH g :
  sequence_of solution [vH; x1; vb1; vb2] ->
  py_round x1 = Returns r -> (0 <= r <= 7)%Z ->
  number_value vH = Some fH ->
  between 3.0 7.0 fH = false
  \/ (exists fb1, number_value vb1 = Some fb1
                  /\ between 2.0 12.0 fb1 = false) ->
  run (evaluate_solution solution) (world0 g) = Returns PENALTY.
Proof.
  intros Hseq Hr Hrange HvH Hout.
  rewrite run_evaluate_solution, (summary_seq _ _ _ _ _ Hseq).
  apply number_value_inv in HvH as (nH & NH & EH).
  unfold summary4. rewrite Hr, (index_in_range r Hrange), NH, EH.
  destruct (between 3.0 7.0 fH) eqn:EbH; [|reflexivity]. cbn [negb].
  destruct Hout as [Hout | (fb1 & Hvb1 & Hout)]; [discriminate|].
  apply number_value_inv in Hvb1 as (nb1 & Nb1 & Eb1).
  rewrite Nb1, Eb1, Hout. reflexivity.
Qed.

(** X3. An element that is not a number raises [TypeError] as soon as a
    comparison reaches it: [H] when the index is in range, [b1] when
    moreover [H] is within its bounds, [b2] when moreover [b1] is. *)
Theorem evaluate_solution_type_error
    solution vH x1 vb1 vb2 r g :
  sequence_of solution [vH; x1; vb1; vb2] ->
  py_round x1 = Returns r -> (0 <= r <= 7)%Z ->
  number_value vH = None
  \/ (exists fH, number_value vH = Some fH /\ between 3.0 7.0 fH = true
       /\ (number_value vb1 = None
           \/ exists fb1, number_value vb1 = Some fb1
                          /\ between 2.0 12.0 fb1 = true
                          /\ number_value vb2 = None)) ->
  run (evaluate_solution solution) (world0 g) = Raises TypeError.
Proof.
  intros Hseq Hr Hrange Hbad.
  rewrite run_evaluate_solution, (summary_seq _ _ _ _ _ Hseq).
  unfold summary4. rewrite Hr, (index_in_range r Hrange).
  unfold number_value in Hbad.
  destruct Hbad as [HvH | (fH & HvH & EbH & Hbad)].
  - destruct (as_num vH); [discriminate | reflexivity].
  - destruct (as_num vH) as [nH|]; [|discriminate].
    injection HvH as ->. rewrite EbH. cbn [negb].
    destruct Hbad as [Hvb1 | (fb1 & Hvb1 & Ebb1 & Hvb2)].
    + destruct (as_num vb1); [discriminate | reflexivity].
    + destruct (as_num vb1) as [nb1|]; [|discriminate].
      injection Hvb1 as ->. rewrite Ebb1. cbn [negb].
      destruct (as_num vb2); [discriminate | reflexivity].
Qed.

(** ** Non-finite numbers *)

Lemma between_non_finite lo hi v f :
  non_finite v -> number_value v = Some f -> between lo hi f = false.
Proof.
  intros [-> | [-> | ->]] [= <-]; unfold between; cbn; reflexivity.
Qed.

(** X4. A [nan] or an infinity in the place of [H], [b1] or [b2] is
    treated like a value out of bounds: on four numbers with a finite [h1],
    the result is the penalty. *)
Theorem evaluate_solution_non_finite_penalty
    solution vH x1 vb1 vb2 q fH fb1 fb2 g :
  sequence_of solution [vH; x1; vb1; vb2] ->
  number_value vH = Some fH -> number_value x1 = Some (Fin q) ->
  number_value vb1 = Some fb1 -> number_value vb2 = Some fb2 ->
  non_finite vH \/ non_finite vb1 \/ non_finite vb2 ->
  run (evaluate_solution solution) (world0 g) = Returns PENALTY.
Proof.
  intros Hseq HvH Hx1 Hvb1 Hvb2 Hnf.
  destruct (py_round_finite _ _ Hx1) as [r Hr].
  apply (evaluate_solution_out_of_bounds solution vH x1 vb1 vb2 r
           fH fb1 fb2); try assumption.
  right.
  destruct Hnf as [Hn | [Hn | Hn]];
    [left | right; left | right; right];
    eapply between_non_finite; eassumption.
Qed.

(** ** The exceptions *)

Lemma py_round_raises v e :
  py_round v = Raises e ->
  (e = ValueError /\ v = VFloat NaN)
  \/ (e = OverflowError /\ (v = VFloat PInf \/ v = VFloat NInf))
  \/ (e = TypeError /\ number_value v = None).
Proof.
  destruct v as [ |b|z|[q| | |]|s|l|l]; cbn; intros [= <-]; auto 6.
Qed.

Lemma summary4_raises vH x1 vb1 vb2 e :
  summary4 vH x1 vb1 vb2 = Raises e ->
  py_round x1 = Raises e \/ e = TypeError.
Proof.
  unfold summary4.
  destruct (py_round x1) as [r|e']; [|intros [= <-]; left; reflexivity].
  destruct ((r <? 0)%Z || (7 <? r)%Z); [discriminate|].
  destruct (as_num vH) as [nH|]; [|intros [= <-]; right; reflexivity].
  destruct (negb (between 3.0 7.0 (value nH))); [discriminate|].
  destruct (as_num vb1) as [nb1|]; [|intros [= <-]; right; reflexivity].
  destruct (negb (between 2.0 12.0 (value nb1))); [discriminate|].
  destruct (as_num vb2) as [nb2|]; [|intros [= <-]; right; reflexivity].
  destruct (negb (between (double 0.1) 2.0 (value nb2))); [discriminate|].
  destruct (value nH), (value nb1), (value nb2); discriminate.
Qed.

(** X5. Whatever the input, the only exceptions that leave
    [evaluate_solution] are [ValueError], when [h1] is [nan],
    [OverflowError], when [h1] is an infinity, and [TypeError]; they only
    occur on a list or tuple of four elements.  In particular no division by
    zero, no index out of range and no missing key escapes. *)
Theorem evaluate_solution_exceptions solution g e :
  run (evaluate_solution solution) (world0 g) = Raises e ->
  exists vH x1 vb1 vb2,
    sequence_of solution [vH; x1; vb1; vb2]
    /\ ((e = ValueError /\ x1 = VFloat NaN)
        \/ (e = OverflowError /\ (x1 = VFloat PInf \/ x1 = VFloat NInf))
        \/ e = TypeError).
Proof.
  rewrite run_evaluate_solution. intros Hraise.
  assert (exists vH x1 vb1 vb2,
             sequence_of solution [vH; x1; vb1; vb2]
             /\ summary4 vH x1 vb1 vb2 = Raises e)
    as (vH & x1 & vb1 & vb2 & Hseq & H4).
  { destruct solution as [ | | | | |l|l]; try discriminate;
      destruct l as [|vH [|x1 [|vb1 [|vb2 [|x l]]]]]; try discriminate;
      exists vH, x1, vb1, vb2; (split; [|exact Hraise]);
      [left | right]; reflexivity. }
  exists vH, x1, vb1, vb2. split; [exact Hseq|].
  destruct (summary4_raises _ _ _ _ _ H4) as [Hr | ->]; [|auto].
  destruct (py_round_raises _ _ Hr) as [? | [? | [-> _]]]; auto.
Qed.

(** X6. Conversely a [nan] index always raises [ValueError] and an
    infinite index always raises [OverflowError], whatever the other
    elements are, even when they are out of bounds or not numbers. *)
Theorem evaluate_solution_non_finite_index
    solution vH x1 vb1 vb2 g :
  sequence_of solution [vH; x1; vb1; vb2] ->
  non_finite x1 ->
  run (evaluate_solution solution) (world0 g)
  = Raises (match x1 with VFloat NaN => ValueError | _ => OverflowError end).
Proof.
  intros Hseq Hnf.
  rewrite run_evaluate_solution, (summary_seq _ _ _ _ _ Hseq).
  unfold summary4.
  destruct Hnf as [-> | [-> | ->]]; reflexivity.
Qed.

(** ** Which real-valued [h1] the index check accepts *)



(** ** The largest value of the objective *)

(** X9. No input is given a volume above 1224, and that value is reached:
    the candidate [[7.0, 7, 12.0, 2.0]], every variable at its upper bound,
    is feasible and is given 1224. *)
Theorem evaluate_solution_max_volume g :
  (forall solution v,
      run (evaluate_solution solution) (world0 g) = Returns v ->
      v = PENALTY \/ exists q, v = VFloat (Fin q) /\ q <= 1224)
  /\ returns_float
       (run (evaluate_solution
               (VList [VFloat (Fin 7.0); VInt 7; VFloat (Fin 12.0);
                       VFloat (Fin 2.0)])) (world0 g)) 1224.
Proof.
  split.
  - intros solution v. rewrite run_evaluate_solution. intros Hv.
    destruct (summary_range _ _ Hv) as [-> | (q & -> & _ & Hq)]; eauto.
  - rewrite run_evaluate_solution.
    exists 1224. split; [vm_compute; reflexivity | reflexivity].
Qed.

(** ** The representation of the numbers does not matter *)

(** [round] sees a number through its value only. *)
Lemma py_round_num v n :
  as_num v = Some n ->
  py_round v = match value n with
               | Fin q => Returns (round_half_even q)
               | NaN => Raises ValueError
               | _ => Raises OverflowError
               end.
Proof.
  destruct v as [ |b|z|[q| | |]|s|l|l]; cbn; intros [= <-]; cbn;
    rewrite ?round_half_even_int; reflexivity.
Qed.

Lemma same_float_round v v' n n' :
  as_num v = Some n -> as_num v' = Some n' ->
  same_float (value n) (value n') -> py_round v = py_round v'.
Proof.
  intros Hn Hn' Hs.
  rewrite (py_round_num _ _ Hn), (py_round_num _ _ Hn').
  destruct (value n), (value n'); cbn in Hs; try contradiction;
    try reflexivity.
  rewrite (round_half_even_comp _ _ Hs). reflexivity.
Qed.

Lemma same_float_between lo hi x y :
  same_float x y -> between lo hi x = between lo hi y.
Proof.
  destruct x, y; cbn; try contradiction; try reflexivity.
  intros Hq. unfold between. cbn.
  rewrite (Qleb_comp lo lo ltac:(reflexivity) _ _ Hq).
  rewrite (Qleb_comp _ _ Hq hi hi ltac:(reflexivity)). reflexivity.
Qed.

Lemma inertia64_comp H H' fh b1 b1' b2 b2' :
  H == H' -> b1 == b1' -> b2 == b2' ->
  inertia64 H fh b1 b2 = inertia64 H' fh b1' b2'.
Proof.
  intros E1 E2 E3. unfold inertia64, web64. cbv zeta.
  apply round_comp. rewrite E1, E2, E3. reflexivity.
Qed.

Lemma stress64_comp H H' I_ : H == H' -> stress64 H I_ = stress64 H' I_.
Proof.
  intros E1. unfold stress64. cbv zeta.
  apply round_comp. rewrite E1. reflexivity.
Qed.

Lemma volume64_comp H H' fh b1 b1' b2 b2' :
  H == H' -> b1 == b1' -> b2 == b2' ->
  volume64 H fh b1 b2 = volume64 H' fh b1' b2'.
Proof.
  intros E1 E2 E3. unfold volume64, web64. cbv zeta.
  apply round_comp. rewrite E1, E2, E3. reflexivity.
Qed.

(** The rounded operations see a float through its value only. *)
Lemma physics_comp H H' fh b1 b1' b2 b2' :
  H == H' -> b1 == b1' -> b2 == b2' ->
  physics H fh b1 b2 = physics H' fh b1' b2'.
Proof.
  intros E1 E2 E3. unfold physics. cbv zeta.
  rewrite (inertia64_comp H H' fh b1 b1' b2 b2' E1 E2 E3).
  rewrite (stress64_comp H H' _ E1).
  rewrite (volume64_comp H H' fh b1 b1' b2 b2' E1 E2 E3).
  reflexivity.
Qed.

Lemma same_outcome_refl o : same_outcome o o.
Proof.
  destruct o as [[ | | |[q| | |]| | |]|e]; cbn; reflexivity || exact Logic.I.
Qed.

(** X10. Only the values of the four numbers matter: two candidates, each a
    list or a tuple, whose elements are numbers of the same value ([True]
    for [1], [5] for [5.0], ...) are given the same result, or raise the
    same exception. *)
Theorem evaluate_solution_representation
    solution vH x1 vb1 vb2 solution' vH' x1' vb1' vb2'
    fH f1 fb1 fb2 fH' f1' fb1' fb2' g :
  sequence_of solution [vH; x1; vb1; vb2] ->
  sequence_of solution' [vH'; x1'; vb1'; vb2'] ->
  number_value vH = Some fH -> number_value vH' = Some fH' ->
  number_value x1 = Some f1 -> number_value x1' = Some f1' ->
  number_value vb1 = Some fb1 -> number_value vb1' = Some fb1' ->
  number_value vb2 = Some fb2 -> number_value vb2' = Some fb2' ->
  same_float fH fH' -> same_float f1 f1' ->
  same_float fb1 fb1' -> same_float fb2 fb2' ->
  same_outcome (run (evaluate_solution solution) (world0 g))
               (run (evaluate_solution solution') (world0 g)).
Proof.
  intros Hseq Hseq' HvH HvH' Hx1 Hx1' Hvb1 Hvb1' Hvb2 Hvb2' SH S1 Sb1 Sb2.
  rewrite !run_evaluate_solution.
  rewrite (summary_seq _ _ _ _ _ Hseq), (summary_seq _ _ _ _ _ Hseq').
  apply number_value_inv in HvH as (nH & NH & <-).
  apply number_value_inv in HvH' as (nH' & NH' & <-).
  apply number_value_inv in Hx1 as (n1 & N1 & <-).
  apply number_value_inv in Hx1' as (n1' & N1' & <-).
  apply number_value_inv in Hvb1 as (nb1 & Nb1 & <-).
  apply number_value_inv in Hvb1' as (nb1' & Nb1' & <-).
  apply number_value_inv in Hvb2 as (nb2 & Nb2 & <-).
  apply number_value_inv in Hvb2' as (nb2' & Nb2' & <-).
  unfold summary4.
  rewrite (same_float_round _ _ _ _ N1 N1' S1).
  rewrite NH, NH', Nb1, Nb1', Nb2, Nb2'.
  rewrite (same_float_between 3.0 7.0 _ _ SH).
  rewrite (same_float_between 2.0 12.0 _ _ Sb1).
  rewrite (same_float_between (double 0.1) 2.0 _ _ Sb2).
  destruct (py_round x1') as [r|e]; [|reflexivity].
  destruct ((r <? 0)%Z || (7 <? r)%Z); [cbn; reflexivity|].
  destruct (negb (between 3.0 7.0 (value nH'))); [cbn; reflexivity|].
  destruct (negb (between 2.0 12.0 (value nb1'))); [cbn; reflexivity|].
  destruct (negb (between (double 0.1) 2.0 (value nb2')));
    [cbn; reflexivity|].
  destruct (value nH), (value nH'); cbn in SH; try contradiction;
    try (cbn; reflexivity);
    destruct (value nb1), (value nb1'); cbn in Sb1;
    try contradiction; try (cbn; reflexivity);
    destruct (value nb2), (value nb2'); cbn in Sb2;
    try contradiction; try (cbn; reflexivity).
  rewrite (physics_comp _ _ (flangeHeight r) _ _ _ _ SH Sb1 Sb2).
  apply same_outcome_refl.
Qed.

(** ** A bound removed from [self.bounds] *)

(** X12. The bounds are read from [self] at each call: in a world where
    the key ["h1"] is missing from [self.bounds], a list or tuple of four
    elements whose [h1] can be rounded raises [KeyError], whatever the other
    attributes and elements are. *)
Theorem evaluate_solution_missing_bound solution vH x1 vb1 vb2 r w :
  sequence_of solution [vH; x1; vb1; vb2] ->
  py_round x1 = Returns r ->
  bounds (self w) !! "h1"%string = None ->
  run (evaluate_solution solution) w = Raises KeyError.
Proof.
  intros Hseq Hr Hmiss. unfold run.
  assert (evaluate_solution solution w
          = evaluate_solution (VList [vH; x1; vb1; vb2]) w) as ->
    by (destruct Hseq as [-> | ->]; reflexivity).
  unfold evaluate_solution. cbv zeta. cbn [length Nat.eqb negb].
  rewrite (bind_lift_eq _ vH) by reflexivity.
  rewrite (bind_lift_eq _ x1) by reflexivity.
  rewrite (bind_lift_eq _ r) by assumption.
  unfold bound at 1. rewrite bind_bind, bind_attr, bind_bind.
  unfold dict_getitem. rewrite Hmiss. reflexivity.
Qed.

(** ** Widening a feasible design *)

Lemma physics_feasible_inv H r b1 b2 :
  (0 <= r <= 7)%Z -> 3 <= H -> H <= 7 -> 2 <= b1 -> b1 <= 12 ->
  double 0.1 <= b2 -> b2 <= 2 ->
  physics H (flangeHeight r) b1 b2 <> PENALTY ->
  stress64 H (inertia64 H (flangeHeight r) b1 b2) <= 5000
  /\ deflection64 (inertia64 H (flangeHeight r) b1 b2) <= double 0.10.
Proof.
  intros Hr ? ? ? ? ? ? Hne.
  destruct (Qlt_le_dec 5000
              (stress64 H (inertia64 H (flangeHeight r) b1 b2)))
    as [Hv|Hg1];
    [|destruct (Qlt_le_dec (double 0.10)
                  (deflection64 (inertia64 H (flangeHeight r) b1 b2)))
        as [Hv|Hg2]; [|split; assumption]];
    exfalso; apply Hne; apply physics_violated; auto.
Qed.

(** X13. Feasibility is monotone in the two widths: if a candidate within
    the bounds is not given the penalty, it is given its volume as the code
    computes it, and so is every candidate with the same [H] and [h1] and
    larger [b1] and [b2] within the bounds, whose volume is at least as
    large. *)
Theorem evaluate_solution_wider_feasible
    solution vH x1 vb1 vb2 solution' vb1' vb2' r H b1 b2 b1' b2' g :
  sequence_of solution [vH; x1; vb1; vb2] ->
  sequence_of solution' [vH; x1; vb1'; vb2'] ->
  number_value vH = Some (Fin H) -> py_round x1 = Returns r ->
  number_value vb1 = Some (Fin b1) -> number_value vb2 = Some (Fin b2) ->
  number_value vb1' = Some (Fin b1') -> number_value vb2' = Some (Fin b2') ->
  (0 <= r <= 7)%Z -> 3.0 <= H <= 7.0 ->
  2.0 <= b1 -> b1 <= b1' -> b1' <= 12.0 ->
  double 0.1 <= b2 -> b2 <= b2' -> b2' <= 2.0 ->
  run (evaluate_solution solution) (world0 g) <> Returns PENALTY ->
  run (evaluate_solution solution) (world0 g)
  = Returns (VFloat (Fin (volume64 H (flangeHeight r) b1 b2)))
  /\ run (evaluate_solution solution') (world0 g)
     = Returns (VFloat (Fin (volume64 H (flangeHeight r) b1' b2')))
  /\ volume64 H (flangeHeight r) b1 b2
     <= volume64 H (flangeHeight r) b1' b2'.
Proof.
  intros Hseq Hseq' HvH Hr Hvb1 Hvb2 Hvb1' Hvb2' Hrange [HH1 HH2]
    Hb1 Hb11 Hb12 Hb2 Hb21 Hb22.
  rewrite !run_evaluate_solution.
  rewrite (summary_seq _ _ _ _ _ Hseq), (summary_seq _ _ _ _ _ Hseq').
  rewrite (summary4_in_bounds _ _ _ _ r H b1 b2)
    by (try assumption; split; lra).
  rewrite (summary4_in_bounds _ _ _ _ r H b1' b2')
    by (try assumption; split; lra).
  destruct (flangeHeight_pos r Hrange) as [Hf1 Hf2].
  destruct double_tenth as [Ht _].
  intros Hfeas.
  assert (physics H (flangeHeight r) b1 b2 <> PENALTY) as Hne
    by (intros E'; apply Hfeas; rewrite E'; reflexivity).
  clear Hfeas.
  apply physics_feasible_inv in Hne as [Hg1 Hg2]; try assumption; try lra.
  set (fh := flangeHeight r) in *.
  assert (0 < inertia64 H fh b1 b2) as HI by (apply inertia64_pos; lra).
  assert (inertia64 H fh b1 b2 <= inertia64 H fh b1' b2') as Hmono
    by (apply inertia64_mono; lra).
  assert (0 < inertia64 H fh b1' b2') as HI' by lra.
  pose proof (stress64_antitone H _ _ ltac:(lra) HI Hmono) as Hs.
  pose proof (deflection64_antitone _ _ HI Hmono) as Hd.
  split; [|split].
  - rewrite physics_feasible by assumption. reflexivity.
  - rewrite physics_feasible; [reflexivity | assumption | lra | lra].
  - apply volume64_mono; lra.
Qed.

End Beam.


(** * The theorems on a concrete generator, and the inputs that raise *)



(** C1, as stated, fails: a list of four elements whose second element is
    a string makes [round] raise [TypeError], which nothing catches. *)
Lemma evaluate_solution_raises_on_str :
  let solution :=
    VList [VFloat (Fin 5.0); VStr "a"; VFloat (Fin 5.0); VFloat (Fin 1.0)] in
  run Cycle.state (evaluate_solution Cycle.state solution)
    (world0 Cycle.state 0%nat) = Raises TypeError
  /\ ~ exists q, run Cycle.state (evaluate_solution Cycle.state solution)
    (world0 Cycle.state 0%nat) = Returns (VFloat (Fin q)).
Proof.
  assert (run Cycle.state (evaluate_solution Cycle.state (VList [VFloat (Fin 5.0); VStr "a"; VFloat (Fin 5.0);
                       VFloat (Fin 1.0)]))
    (world0 Cycle.state 0%nat) = Raises TypeError) as E
    by (vm_compute; reflexivity).
  cbv zeta. split; [exact E|]. intros [q Hq]. congruence.
Qed.

Lemma evaluate_solution_total_on_numbers_witness :
  four_numbers (VTuple [VInt 7; VFloat (Fin 6.5); VFloat PInf; VBool true])
  /\ exists q,
      run Cycle.state (evaluate_solution Cycle.state (VTuple [VInt 7; VFloat (Fin 6.5); VFloat PInf; VBool true]))
    (world0 Cycle.state 0%nat)
      = Returns (VFloat (Fin q)).
Proof.
  assert (four_numbers
            (VTuple [VInt 7; VFloat (Fin 6.5); VFloat PInf; VBool true]))
    as Hn.
  { exists (VInt 7), (VFloat (Fin 6.5)), (VFloat PInf), (VBool true), 6.5.
    split; [right; reflexivity|].
    split; [discriminate|]. split; [reflexivity|].
    split; discriminate. }
  split; [exact Hn|].
  apply (evaluate_solution_total_on_numbers Cycle.state _ 0%nat).
  right. exact Hn.
Defined.

(** C2, as stated, fails: a list of four elements whose third element is
    a string is not a sequence of four numbers, yet the result is not the
    penalty: the comparison [2.0 <= "x"] raises [TypeError]. *)
Lemma evaluate_solution_raises_on_str_width :
  let solution :=
    VList [VFloat (Fin 5.0); VInt 7; VStr "x"; VFloat (Fin 1.0)] in
  ~ four_numeric_values solution
  /\ run Cycle.state (evaluate_solution Cycle.state solution)
    (world0 Cycle.state 0%nat) = Raises TypeError
  /\ run Cycle.state (evaluate_solution Cycle.state solution)
    (world0 Cycle.state 0%nat) <> Returns PENALTY.
Proof.
  assert (run Cycle.state (evaluate_solution Cycle.state (VList [VFloat (Fin 5.0); VInt 7; VStr "x";
                       VFloat (Fin 1.0)]))
    (world0 Cycle.state 0%nat) = Raises TypeError) as E
    by (vm_compute; reflexivity).
  cbv zeta. split; [|split; [exact E | congruence]].
  intros (items & [Hs | Hs] & _ & Hall); [|discriminate].
  injection Hs as <-.
  inversion Hall as [|? ? _ Hall1]; subst.
  inversion Hall1 as [|? ? _ Hall2]; subst.
  inversion Hall2 as [|? ? Hx _]; subst.
  apply Hx. reflexivity.
Qed.

Lemma evaluate_solution_arity_penalty_witness :
  ~ four_items (VList [VFloat (Fin 5.0); VInt 7; VFloat (Fin 5.0)])
  /\ run Cycle.state (evaluate_solution Cycle.state (VList [VFloat (Fin 5.0); VInt 7; VFloat (Fin 5.0)]))
    (world0 Cycle.state 0%nat)
     = Returns PENALTY.
Proof.
  assert (~ four_items (VList [VFloat (Fin 5.0); VInt 7; VFloat (Fin 5.0)]))
    as Hn.
  { intros (items & [Hs | Hs] & Hlen); [|discriminate].
    injection Hs as <-. discriminate Hlen. }
  split; [exact Hn|].
  apply (evaluate_solution_arity_penalty Cycle.state _
           (world0 Cycle.state 0%nat)).
  exact Hn.
Defined.



(** The constraints are decided on the rounded quantities.  For
    [[4.0, 7, 3.261142857142857, 0.5]] the exact deflection exceeds [1/10]
    while the computed one is below the float [0.10]: the candidate is
    feasible.  For [[4.0, 5, 3.6963617571059433, 0.5]] it is the other way
    round: the candidate is given the penalty. *)
Lemma constraints_decided_after_rounding :
  (1 # 10 < deflection
              (inertia 4.0 (flangeHeight 7) (double 3.261142857142857) 0.5)
   /\ deflection64
        (inertia64 4.0 (flangeHeight 7) (double 3.261142857142857) 0.5)
      <= double 0.10)
  /\ (deflection
        (inertia 4.0 (flangeHeight 5) (double 3.6963617571059433) 0.5)
      <= 1 # 10
      /\ double 0.10
         < deflection64
             (inertia64 4.0 (flangeHeight 5)
                (double 3.6963617571059433) 0.5)).
Proof.
  split; split; vm_compute; first [reflexivity | discriminate].
Qed.

(** C5 fails on the code: with an infinite [h1] and [H] outside its
    interval, [round] raises [OverflowError] before any check is made. *)
Lemma evaluate_solution_raises_on_infinite_index :
  run Cycle.state (evaluate_solution Cycle.state (VList [VFloat (Fin 100.0); VFloat PInf; VFloat (Fin 5.0);
               VFloat (Fin 1.0)]))
    (world0 Cycle.state 0%nat)
  = Raises OverflowError.
Proof. vm_compute. reflexivity. Qed.



Lemma evaluate_solution_range_witness :
  (VFloat (Fin 1224) = PENALTY
   \/ exists q,
        VFloat (Fin 1224) = VFloat (Fin q)
        /\ 0 < q /\ q <= (2 * 1.0 * 12.0 + (7.0 - 0.2) * 2.0) * 36
        /\ q < 1000000000)
  /\ (2 * 1.0 * 12.0 + (7.0 - 0.2) * 2.0) * 36 == 1353.6.
Proof.
  apply (evaluate_solution_range Cycle.state
           (VTuple [VInt 7; VInt 7; VInt 12; VInt 2]) 0%nat).
  vm_compute. reflexivity.
Defined.

(** * The further properties at concrete inputs *)

Lemma evaluate_solution_index_check_first_witness :
  run Cycle.state
    (evaluate_solution Cycle.state
       (VList [VStr "a"; VInt 100; VNone; VList []]))
    (world0 Cycle.state 0%nat)
  = Returns PENALTY.
Proof.
  apply (evaluate_solution_index_check_first Cycle.state _
           (VStr "a") (VInt 100) VNone (VList []) 100 0%nat).
  - left. reflexivity.
  - reflexivity.
  - right. lia.
Defined.

Lemma evaluate_solution_bounds_shield_witness :
  run Cycle.state
    (evaluate_solution Cycle.state
       (VTuple [VFloat (Fin 100.0); VInt 3; VStr "x"; VNone]))
    (world0 Cycle.state 0%nat)
  = Returns PENALTY.
Proof.
  apply (evaluate_solution_bounds_shield Cycle.state _
           (VFloat (Fin 100.0)) (VInt 3) (VStr "x") VNone 3 (Fin 100.0)
           0%nat).
  - right. reflexivity.
  - reflexivity.
  - lia.
  - reflexivity.
  - left. vm_compute. reflexivity.
Defined.

Lemma evaluate_solution_type_error_witness :
  run Cycle.state
    (evaluate_solution Cycle.state
       (VList [VFloat (Fin 5.0); VInt 3; VFloat (Fin 5.0); VNone]))
    (world0 Cycle.state 0%nat)
  = Raises TypeError.
Proof.
  apply (evaluate_solution_type_error Cycle.state _
           (VFloat (Fin 5.0)) (VInt 3) (VFloat (Fin 5.0)) VNone 3 0%nat).
  - left. reflexivity.
  - reflexivity.
  - lia.
  - right. exists (Fin 5.0). split; [reflexivity|].
    split; [vm_compute; reflexivity|].
    right. exists (Fin 5.0). split; [reflexivity|].
    split; [vm_compute; reflexivity | reflexivity].
Defined.

Lemma evaluate_solution_non_finite_penalty_witness :
  run Cycle.state
    (evaluate_solution Cycle.state
       (VList [VFloat NaN; VFloat (Fin 3.2); VFloat (Fin 5.0); VInt 1]))
    (world0 Cycle.state 0%nat)
  = Returns PENALTY.
Proof.
  apply (evaluate_solution_non_finite_penalty Cycle.state _
           (VFloat NaN) (VFloat (Fin 3.2)) (VFloat (Fin 5.0)) (VInt 1)
           3.2 NaN (Fin 5.0) (Fin 1) 0%nat).
  - left. reflexivity.
  - reflexivity.
  - reflexivity.
  - reflexivity.
  - reflexivity.
  - left. left. reflexivity.
Defined.

Lemma evaluate_solution_exceptions_witness :
  exists vH x1 vb1 vb2,
    sequence_of
      (VList [VFloat (Fin 5.0); VFloat NInf; VFloat (Fin 5.0); VStr "b"])
      [vH; x1; vb1; vb2]
    /\ ((OverflowError = ValueError /\ x1 = VFloat NaN)
        \/ (OverflowError = OverflowError
            /\ (x1 = VFloat PInf \/ x1 = VFloat NInf))
        \/ OverflowError = TypeError).
Proof.
  apply (evaluate_solution_exceptions Cycle.state _ 0%nat OverflowError).
  vm_compute. reflexivity.
Defined.

Lemma evaluate_solution_non_finite_index_witness :
  run Cycle.state
    (evaluate_solution Cycle.state
       (VList [VStr "a"; VFloat NaN; VFloat (Fin 100.0); VNone]))
    (world0 Cycle.state 0%nat)
  = Raises ValueError.
Proof.
  apply (evaluate_solution_non_finite_index Cycle.state _
           (VStr "a") (VFloat NaN) (VFloat (Fin 100.0)) VNone 0%nat).
  - left. reflexivity.
  - left. reflexivity.
Defined.


Lemma evaluate_solution_representation_witness :
  same_outcome
    (run Cycle.state
       (evaluate_solution Cycle.state
          (VList [VInt 5; VInt 7; VInt 5; VBool true]))
       (world0 Cycle.state 0%nat))
    (run Cycle.state
       (evaluate_solution Cycle.state
          (VTuple [VFloat (Fin 5.0); VFloat (Fin 7.0); VFloat (Fin 5.0);
                   VFloat (Fin 1.0)]))
       (world0 Cycle.state 0%nat)).
Proof.
  apply (evaluate_solution_representation Cycle.state
           _ (VInt 5) (VInt 7) (VInt 5) (VBool true)
           _ (VFloat (Fin 5.0)) (VFloat (Fin 7.0)) (VFloat (Fin 5.0))
             (VFloat (Fin 1.0))
           (Fin 5) (Fin 7) (Fin 5) (Fin 1)
           (Fin 5.0) (Fin 7.0) (Fin 5.0) (Fin 1.0) 0%nat);
    try reflexivity.
  - left. reflexivity.
  - right. reflexivity.
Defined.

Lemma evaluate_solution_missing_bound_witness :
  run Cycle.state
    (evaluate_solution Cycle.state
       (VList [VFloat (Fin 5.0); VInt 7; VFloat (Fin 5.0);
               VFloat (Fin 1.0)]))
    {| self :=
         {| P := P __init__; E := E __init__; L := L __init__;
            possibleValues := possibleValues __init__;
            bounds := delete "h1"%string (bounds __init__) |};
       rng := 0%nat |}
  = Raises KeyError.
Proof.
  apply (evaluate_solution_missing_bound Cycle.state _
           (VFloat (Fin 5.0)) (VInt 7) (VFloat (Fin 5.0))
           (VFloat (Fin 1.0)) 7).
  - left. reflexivity.
  - reflexivity.
  - vm_compute. reflexivity.
Defined.

Lemma evaluate_solution_wider_feasible_witness :
  run Cycle.state
    (evaluate_solution Cycle.state
       (VList [VFloat (Fin 5.0); VInt 7; VFloat (Fin 5.0);
               VFloat (Fin 1.0)]))
    (world0 Cycle.state 0%nat)
  = Returns (VFloat (Fin (volume64 5.0 (flangeHeight 7) 5.0 1.0)))
  /\ run Cycle.state
       (evaluate_solution Cycle.state
          (VList [VFloat (Fin 5.0); VInt 7; VFloat (Fin 12.0);
                  VFloat (Fin 2.0)]))
       (world0 Cycle.state 0%nat)
     = Returns (VFloat (Fin (volume64 5.0 (flangeHeight 7) 12.0 2.0)))
  /\ volume64 5.0 (flangeHeight 7) 5.0 1.0
     <= volume64 5.0 (flangeHeight 7) 12.0 2.0.
Proof.
  apply (evaluate_solution_wider_feasible Cycle.state
           (VList [VFloat (Fin 5.0); VInt 7; VFloat (Fin 5.0);
                   VFloat (Fin 1.0)])
           (VFloat (Fin 5.0)) (VInt 7) (VFloat (Fin 5.0)) (VFloat (Fin 1.0))
           _ (VFloat (Fin 12.0)) (VFloat (Fin 2.0))
           7 5.0 5.0 1.0 12.0 2.0 0%nat).
  - left. reflexivity.
  - left. reflexivity.
  - reflexivity.
  - reflexivity.
  - reflexivity.
  - reflexivity.
  - reflexivity.
  - reflexivity.
  - lia.
  - split; vm_compute; discriminate.
  - vm_compute; discriminate.
  - vm_compute; discriminate.
  - vm_compute; discriminate.
  - vm_compute; discriminate.
  - vm_compute; discriminate.
  - vm_compute; discriminate.
  - vm_compute. discriminate.
Defined.
